(** * A shallow embedding of [evelib/yaml_workaround.py]

    The line-oriented loader of the EVE static-data export files.  The file is
    opened in binary mode and each line is decoded as UTF-8.  A line's bytes
    and its [.decode()] are both modelled by the same [string] (a list of
    [ascii]), and the Python [str] methods are written out for ASCII text.
    This is exact for ASCII lines.  On other bytes Python's [str] methods
    see Unicode characters ([str.isnumeric] is true of '½', [str.strip]
    removes U+00A0) and [.decode()] may raise [UnicodeDecodeError], which
    this model does not follow: the properties whose truth depends on it
    assume ASCII text ([Py.ascii_text]). *)

From Stdlib Require Import String Ascii List ZArith Bool Lia.
Import ListNotations.
Open Scope string_scope.
Open Scope Z_scope.
Set Warnings "-register-all".

(* ------------------------------------------------------------------ *)
(** ** Python string primitives (ASCII) *)

Module Py.

Definition chr (n : nat) : ascii := ascii_of_nat n.

(** The one-character string made of a double quote (code 34). *)
Definition dquote : string := String (chr 34) EmptyString.
Definition nl : ascii := chr 10.

(** [str.isspace] on one ASCII character: \t \n \x0b \x0c \r, \x1c-\x1f, space. *)
Definition str_isspace (c : ascii) : bool :=
  let n := nat_of_ascii c in
  ((9 <=? n) && (n <=? 13))%nat || ((28 <=? n) && (n <=? 32))%nat.

(** [bytes.isspace] on one byte: \t \n \x0b \x0c \r and space only. *)
Definition bytes_isspace (c : ascii) : bool :=
  let n := nat_of_ascii c in
  ((9 <=? n) && (n <=? 13))%nat || (n =? 32)%nat.

Fixpoint lstrip_by (p : ascii -> bool) (s : string) : string :=
  match s with
  | EmptyString => EmptyString
  | String c r => if p c then lstrip_by p r else s
  end.

Fixpoint rev_str (s : string) : string :=
  match s with
  | EmptyString => EmptyString
  | String c r => rev_str r ++ String c EmptyString
  end.

Definition rstrip_by (p : ascii -> bool) (s : string) : string :=
  rev_str (lstrip_by p (rev_str s)).

Definition strip_by (p : ascii -> bool) (s : string) : string :=
  rstrip_by p (lstrip_by p s).

Fixpoint in_chars (cs : string) (c : ascii) : bool :=
  match cs with
  | EmptyString => false
  | String d r => Ascii.eqb c d || in_chars r c
  end.

(** [str.strip()], [str.rstrip()], [bytes.strip()]. *)
Definition strip (s : string) : string := strip_by str_isspace s.
Definition rstrip (s : string) : string := rstrip_by str_isspace s.
Definition bstrip (s : string) : string := strip_by bytes_isspace s.

(** [s.lstrip(chars)], [s.rstrip(chars)], [s.strip(chars)]: [chars] is a set. *)
Definition lstrip_chars (chars s : string) : string := lstrip_by (in_chars chars) s.
Definition rstrip_chars (chars s : string) : string := rstrip_by (in_chars chars) s.
Definition strip_chars (chars s : string) : string := strip_by (in_chars chars) s.

(** [s.startswith(p)] and [s.endswith(p)]. *)
Definition startswith (p s : string) : bool := String.prefix p s.
Definition endswith (p s : string) : bool := String.prefix (rev_str p) (rev_str s).

Fixpoint str_drop (n : nat) (s : string) : string :=
  match n, s with
  | O, _ => s
  | S n', EmptyString => EmptyString
  | S n', String _ r => str_drop n' r
  end.

(** [s.split(sep)] for a non-empty [sep]; every step consumes at least one
    character, so [length s] steps always suffice. *)
Fixpoint split_fuel (fuel : nat) (sep s : string) : list string :=
  match fuel with
  | O => [s]
  | S f =>
      match s with
      | EmptyString => [EmptyString]
      | String c r =>
          if String.prefix sep s
          then EmptyString :: split_fuel f sep (str_drop (String.length sep) s)
          else match split_fuel f sep r with
               | x :: xs => String c x :: xs
               | [] => [String c EmptyString]
               end
      end
  end.

Definition split (sep s : string) : list string := split_fuel (String.length s) sep s.

(** [s.replace(old, new)] for a non-empty [old], left to right, non-overlapping. *)
Fixpoint replace_fuel (fuel : nat) (old new s : string) : string :=
  match fuel with
  | O => s
  | S f =>
      match s with
      | EmptyString => EmptyString
      | String c r =>
          if String.prefix old s
          then new ++ replace_fuel f old new (str_drop (String.length old) s)
          else String c (replace_fuel f old new r)
      end
  end.

Definition replace (old new s : string) : string :=
  replace_fuel (String.length s) old new s.

Definition is_digit (c : ascii) : bool :=
  let n := nat_of_ascii c in ((48 <=? n) && (n <=? 57))%nat.

Fixpoint all_chars (p : ascii -> bool) (s : string) : bool :=
  match s with
  | EmptyString => true
  | String c r => p c && all_chars p r
  end.

(** ASCII text: every character below 128. *)
Definition is_ascii (c : ascii) : bool := (nat_of_ascii c <? 128)%nat.
Definition ascii_text (s : string) : bool := all_chars is_ascii s.

(** [str.isnumeric()] on ASCII text: non-empty and only the digits 0-9. *)
Definition isnumeric (s : string) : bool :=
  negb (String.eqb s EmptyString) && all_chars is_digit s.

Fixpoint count_char (c : ascii) (s : string) : nat :=
  match s with
  | EmptyString => O
  | String d r => (if Ascii.eqb c d then 1 else 0) + count_char c r
  end.

(** The decimal value of a digit string, most significant digit first. *)
Fixpoint digits_acc (acc : Z) (s : string) : Z :=
  match s with
  | EmptyString => acc
  | String c r =>
      if is_digit c then digits_acc (10 * acc + (Z.of_nat (nat_of_ascii c) - 48)) r
      else digits_acc acc r
  end.

(** Number of characters after the first '.' (0 when there is none). *)
Fixpoint frac_len (s : string) : nat :=
  match s with
  | EmptyString => O
  | String c r => if Ascii.eqb c "." then String.length r else frac_len r
  end.

(** [s[1:-1]]: drop the first and the last character. *)
Definition inner (s : string) : string :=
  match s with
  | EmptyString => EmptyString
  | String _ r => rev_str (str_drop 1 (rev_str r))
  end.

End Py.

(* ------------------------------------------------------------------ *)
(** ** Values and errors *)

(** A Python [float] made by [float()] from a literal of digits and one dot:
    [DFin m e] is the finite double [m * 2^e] (with [m] odd, or [m = 0] and
    [e = 0]), [DInf] is [inf]. *)
Inductive double : Type :=
| DFin (m : Z) (e : Z)
| DInf.

(** The Python objects the loader builds.  [VRef a] is a reference to the
    mutable list or dict stored at address [a] of the heap (the loader
    shares those objects between the tree and its stack of layers).  A
    [list] returned by [handle_value] is never mutated afterwards and is
    kept inline as [VList]. *)
Inductive value : Type :=
| VStr (s : string)
| VInt (z : Z)
| VFloat (f : double)
| VBool (b : bool)
| VList (vs : list value)
| VDict (kvs : list (value * value))
| VRef (a : nat).

(** The exceptions the module can raise, one per raise site or builtin. *)
Inductive error : Type :=
| IndentError          (* on_line: ValueError("weh") *)
| CannotHandle         (* on_line: ValueError('Cannot handle line ...') *)
| ExpectedList         (* handle_list: ValueError("Expected list layer ...") *)
| ExpectedDict         (* handle_dict: ValueError("Expected dict layer ...") *)
| FutureIndent         (* handle_dict: ValueError("Future indent level ...") *)
| OutsideStop          (* get_text_block: ValueError("Found characters outside ...") *)
| FloatValueError      (* float(given) on a malformed literal *)
| IntValueError        (* int(given) on more than 4300 digits *)
| IndexError           (* indexing an empty list or string *)
| TypeError.           (* unhashable dict key, or None - int *)

Inductive res (A : Type) : Type :=
| Ok (a : A)
| Err (e : error).
Arguments Ok {A} a.
Arguments Err {A} e.

Fixpoint map_res {A B} (f : A -> res B) (l : list A) : res (list B) :=
  match l with
  | [] => Ok []
  | x :: r =>
      match f x with
      | Err e => Err e
      | Ok y => match map_res f r with Err e => Err e | Ok ys => Ok (y :: ys) end
      end
  end.

(** [int(given)] on a string of ASCII digits.  CPython (3.10.7 and later,
    [sys.get_int_max_str_digits()] left at its default) refuses a string of
    more than 4300 digits, leading zeros included. *)
Definition py_int (given : string) : res value :=
  if (4300 <? String.length given)%nat then Err IntValueError
  else Ok (VInt (Py.digits_acc 0 given)).

(** [a / b] rounded to the nearest integer, ties to even ([a >= 0], [b > 0]). *)
Definition round_div (a b : Z) : Z :=
  let q := a / b in
  match Z.compare (2 * (a mod b)) b with
  | Lt => q
  | Gt => q + 1
  | Eq => if Z.even q then q else q + 1
  end.

(** [n / d >= 2^k], for [n, d > 0]. *)
Definition ge_pow2 (n d k : Z) : bool :=
  if 0 <=? k then d * 2 ^ k <=? n else d <=? n * 2 ^ (- k).

(** [floor(log2(n / d))], for [n, d > 0]: [log2 n - log2 d] or one less. *)
Definition binexp (n d : Z) : Z :=
  let k := Z.log2 n - Z.log2 d in
  if ge_pow2 n d k then k else k - 1.

(** [n / d / 2^e] rounded to the nearest integer, ties to even. *)
Definition scale_div (n d e : Z) : Z :=
  if 0 <=? e then round_div n (d * 2 ^ e) else round_div (n * 2 ^ (- e)) d.

(** [m * 2^e] with the trailing zero bits of [m] moved into [e]. *)
Definition normalize (m e : Z) : double :=
  if m =? 0 then DFin 0 0
  else let t := Z.log2 (Z.land m (- m)) in DFin (Z.shiftr m t) (e + t).

(** The double nearest to [n * 10^-d] ([n >= 0]), ties to even: the
    significand has 53 bits, the exponent of its last bit is at least
    -1074 (subnormals), and a value that rounds to [2^1024] or more is
    [inf].  This is the correctly rounded conversion [float()] performs. *)
Definition round_double (n : Z) (d : nat) : double :=
  let den := 10 ^ Z.of_nat d in
  if n <=? 0 then DFin 0 0
  else
    let e := Z.max (binexp n den - 52) (-1074) in
    let q := scale_div n den e in
    if ge_pow2 q 1 (1024 - e) then DInf else normalize q e.

(** [float(given)], for the strings [handle_value] passes to it: ASCII
    digits and dots with at least one digit.  Python accepts them when
    there is exactly one dot and raises [ValueError] otherwise. *)
Definition py_float (given : string) : res value :=
  if (Py.count_char "." given =? 1)%nat
  then Ok (VFloat (round_double (Py.digits_acc 0 given) (Py.frac_len given)))
  else Err FloatValueError.

(** [handle_value]; the recursion on the elements of a flow sequence is on
    strictly shorter strings, [fuel] bounds its depth. *)
Fixpoint handle_value_fuel (fuel : nat) (given0 : string) : res value :=
  let given := Py.strip given0 in
  let temp := Py.replace "." "" given in
  if Py.isnumeric temp then
    if negb (String.eqb temp given) then py_float given else py_int given
  else if String.eqb given "true" then Ok (VBool true)
  else if String.eqb given "false" then Ok (VBool false)
  else if Py.startswith "[" given && Py.endswith "]" given then
    let split_given := Py.split "," (Py.inner given) in
    if (1 <? List.length split_given)%nat then
      match fuel with
      | O => Err IndexError
      | S f => match map_res (handle_value_fuel f) split_given with
               | Ok ret => Ok (VList ret)
               | Err e => Err e
               end
      end
    else Ok (VList [])
  else Ok (VStr given).

Definition handle_value (given : string) : res value :=
  handle_value_fuel (String.length given) given.

(** A number as an exact binary fraction [m * 2^e], or [inf]. *)
Inductive num : Type :=
| NFin (m : Z) (e : Z)
| NInf.

(** Python [==] between two hashable scalars (dict keys): strings compare
    as strings; [bool], [int] and [float] compare by exact numeric value
    ([True == 1 == 1.0]; an [int] never equals [inf]). *)
Definition num_of (v : value) : option num :=
  match v with
  | VInt z => Some (NFin z 0)
  | VBool b => Some (NFin (if b then 1 else 0) 0)
  | VFloat (DFin m e) => Some (NFin m e)
  | VFloat DInf => Some NInf
  | _ => None
  end.

Definition num_eqb (x y : num) : bool :=
  match x, y with
  | NFin m1 e1, NFin m2 e2 =>
      let e := Z.min e1 e2 in Z.eqb (m1 * 2 ^ (e1 - e)) (m2 * 2 ^ (e2 - e))
  | NInf, NInf => true
  | _, _ => false
  end.

Definition py_eqb (a b : value) : bool :=
  match a, b with
  | VStr x, VStr y => String.eqb x y
  | _, _ =>
      match num_of a, num_of b with
      | Some x, Some y => num_eqb x y
      | _, _ => false
      end
  end.

(** Keys Python can hash: the scalars [handle_value] produces. *)
Definition hashable (v : value) : bool :=
  match v with
  | VStr _ | VInt _ | VFloat _ | VBool _ => true
  | _ => false
  end.

(** [d[k] = v] on a dict kept as its insertion-ordered entries: an entry
    whose key equals [k] keeps its key and position and takes the value [v];
    otherwise [(k, v)] is appended. *)
Fixpoint dict_set (k v : value) (kvs : list (value * value)) : list (value * value) :=
  match kvs with
  | [] => [(k, v)]
  | (k', v') :: r => if py_eqb k' k then (k', v) :: r else (k', v') :: dict_set k v r
  end.

(* ------------------------------------------------------------------ *)
(** ** Line classification (module-level helpers) *)

(** [strip_indent(line) = line.lstrip(" ")]. *)
Definition strip_indent (line : string) : string := Py.lstrip_chars " " line.

(** [get_indent_level(line) = len(line) - len(strip_indent(line))]. *)
Definition get_indent_level (line : string) : Z :=
  Z.of_nat (String.length line) - Z.of_nat (String.length (strip_indent line)).

(** [strip_list_indent(line) = line.lstrip("- ")]: strips the character set
    {'-', ' '}, not the prefix "- ". *)
Definition strip_list_indent (line : string) : string := Py.lstrip_chars "- " line.

(** [get_stripped_list_indent(line) = len(line) - len(strip_list_indent(line))]. *)
Definition get_stripped_list_indent (line : string) : Z :=
  Z.of_nat (String.length line) - Z.of_nat (String.length (strip_list_indent line)).

(** [get_list_indent(line)]: [len(line.split("- ")[0]) + 2] for a list item,
    [None] otherwise. *)
Definition get_list_indent (line : string) : option Z :=
  if Py.startswith "- " (strip_indent line)
  then Some (Z.of_nat (String.length (hd EmptyString (Py.split "- " line))) + 2)
  else None.

(** Python's [a or b] on an [int | None] and an [int]. *)
Definition int_or (a : option Z) (b : Z) : Z :=
  match a with
  | Some n => if n =? 0 then b else n
  | None => b
  end.

(** [get_list_indent(d) or get_indent_level(d)], the indent both [on_line]
    and [handle_dict] compute for a line. *)
Definition line_indent (line : string) : Z :=
  int_or (get_list_indent line) (get_indent_level line).

(** [s[:n]]. *)
Definition take (n : nat) (s : string) : string := String.substring 0 n s.

(** The [for index, char in enumerate(given_line)] loop of [get_dict_value];
    [rest] is [given_line[index:]]. *)
Fixpoint dict_scan (given_line : string) (index : nat) (rest : string)
  : res (option (value * value)) :=
  match rest with
  | EmptyString => Ok None
  | String c r =>
      if Ascii.eqb c ":" then
        if (String.length given_line =? S index)%nat then
          match handle_value (strip_list_indent (take index given_line)) with
          | Ok k => Ok (Some (k, VDict []))
          | Err e => Err e
          end
        else if Py.startswith " " r then
          match handle_value (strip_list_indent (take index given_line)) with
          | Err e => Err e
          | Ok k =>
              match handle_value (Py.str_drop (S index) given_line) with
              | Ok v => Ok (Some (k, v))
              | Err e => Err e
              end
          end
        else dict_scan given_line (S index) r
      else dict_scan given_line (S index) r
  end.

(** [get_dict_value]; the open marker [{}] is [VDict []]. *)
Definition get_dict_value (given_line0 : string) : res (option (value * value)) :=
  let given_line := Py.strip (strip_indent given_line0) in
  dict_scan given_line 0 given_line.

(** [find_stop_string]: the index of the first [stop_string] that is not
    part of an escaped [\q] or a doubled [qq]. *)
Definition find_stop_string (given_text stop_string : string) : option nat :=
  let split_text :=
    Py.split stop_string
      (Py.replace (stop_string ++ stop_string) "~~"
         (Py.replace ("\" ++ stop_string) "~~" given_text)) in
  match split_text with
  | [_] => None
  | segment :: _ => Some (String.length segment)
  | [] => None
  end.

(* ------------------------------------------------------------------ *)
(** ** The loader's state *)

(** The file opened with [open(file_path, "rb")]: its bytes and the offset. *)
Record pyfile : Type := mk_file { contents : string; pos : nat }.

(** A mutable list or dict object of the heap. *)
Inductive container : Type :=
| CList (vs : list value)
| CDict (kvs : list (value * value)).

(** [NestedData(indent, data)]: relative indent and the address of [data]. *)
Definition nested_data : Type := (Z * nat)%type.

(** The loader object: heap of containers, [data_layers] (innermost layer
    first, i.e. the reverse of the Python list) and [file]. *)
Record state : Type := mk_state {
  heap : list container;
  data_layers : list nested_data;
  file : pyfile
}.

Inductive outcome (A : Type) : Type :=
| Done (a : A) (s : state)
| Raise (e : error)
| OutOfFuel.
Arguments Done {A} a s.
Arguments Raise {A} e.
Arguments OutOfFuel {A}.

(** State and exceptions, threaded through every method. *)
Definition M (A : Type) : Type := state -> outcome A.

Definition ret {A} (a : A) : M A := fun s => Done a s.
Definition raise {A} (e : error) : M A := fun _ => Raise e.
Definition bind {A B} (m : M A) (k : A -> M B) : M B :=
  fun s => match m s with
           | Done a s' => k a s'
           | Raise e => Raise e
           | OutOfFuel => OutOfFuel
           end.
Definition lift {A} (r : res A) : M A :=
  match r with Ok a => ret a | Err e => raise e end.
Definition gets {A} (f : state -> A) : M A := fun s => Done (f s) s.
Definition modify (f : state -> state) : M unit := fun s => Done tt (f s).

Notation "x <- m ;; k" := (bind m (fun x => k)) (at level 61, m at next level, right associativity).
Notation "' p <- m ;; k" := (bind m (fun x => match x with p => k end))
  (at level 61, p pattern, m at next level, right associativity).
Notation "m ;; k" := (bind m (fun _ => k)) (at level 61, right associativity).

Definition set_file (f : pyfile) (s : state) : state := mk_state (heap s) (data_layers s) f.
Definition set_layers (l : list nested_data) (s : state) : state := mk_state (heap s) l (file s).
Definition set_heap (h : list container) (s : state) : state := mk_state h (data_layers s) (file s).

(** The first line of [s], its newline included. *)
Fixpoint readline_of (s : string) : string :=
  match s with
  | EmptyString => EmptyString
  | String c r => if Ascii.eqb c Py.nl then String c EmptyString else String c (readline_of r)
  end.

(** [file.readline()]: [b""] at end of file. *)
Definition readline : M string :=
  fun s => let f := file s in
           let line := readline_of (Py.str_drop (pos f) (contents f)) in
           Done line (set_file (mk_file (contents f) (pos f + String.length line)) s).

(** [file.seek(-n, 1)]. *)
Definition seek_back (n : nat) : M unit :=
  modify (fun s => set_file (mk_file (contents (file s)) (pos (file s) - n)) s).

Fixpoint upd_nth {A} (n : nat) (x : A) (l : list A) : list A :=
  match n, l with
  | O, _ :: r => x :: r
  | S n', y :: r => y :: upd_nth n' x r
  | _, [] => []
  end.

(** A new empty [[]] or [{}]: its address is the heap's length. *)
Definition alloc (c : container) : M nat :=
  fun s => Done (List.length (heap s)) (set_heap (heap s ++ [c]) s).

Definition deref (a : nat) : M container :=
  fun s => match nth_error (heap s) a with
           | Some c => Done c s
           | None => Raise IndexError
           end.

(** [data[k] = v] on the dict at [a]. *)
Definition setitem (a : nat) (k v : value) : M unit :=
  c <- deref a ;;
  match c with
  | CDict kvs =>
      if hashable k then modify (fun s => set_heap (upd_nth a (CDict (dict_set k v kvs)) (heap s)) s)
      else raise TypeError
  | CList _ => raise TypeError
  end.

(** [data.append(v)] on the list at [a]. *)
Definition append (a : nat) (v : value) : M unit :=
  c <- deref a ;;
  match c with
  | CList vs => modify (fun s => set_heap (upd_nth a (CList (vs ++ [v])) (heap s)) s)
  | CDict _ => raise TypeError
  end.

Definition is_dict (c : container) : bool := match c with CDict _ => true | _ => false end.
Definition is_list (c : container) : bool := match c with CList _ => true | _ => false end.

(** [top_layer] ([self.data_layers[-1]]), [add_data_layer], [pop_data_layer]. *)
Definition top_layer : M nested_data :=
  fun s => match data_layers s with
           | l :: _ => Done l s
           | [] => Raise IndexError
           end.

Definition add_data_layer (indent : Z) (pointer : nat) : M unit :=
  modify (fun s => set_layers ((indent, pointer) :: data_layers s) s).

Definition pop_data_layer : M unit :=
  fun s => match data_layers s with
           | _ :: r => Done tt (set_layers r s)
           | [] => Raise IndexError
           end.

(** [sum_layer_indent]. *)
Definition layer_sum (ls : list nested_data) : Z :=
  fold_right (fun l acc => fst l + acc) 0 ls.

(** The dedent loop of [on_line]: [while cur < sum_layer_indent: pop]. *)
Fixpoint pop_layers (cur : Z) (ls : list nested_data) : res (list nested_data) :=
  match ls with
  | [] => if cur <? 0 then Err IndexError else Ok []
  | _ :: r => if cur <? layer_sum ls then pop_layers cur r else Ok ls
  end.

Definition is_empty_dict (v : value) : bool :=
  match v with VDict [] => true | _ => false end.

Definition newline : string := String Py.nl EmptyString.

(* ------------------------------------------------------------------ *)
(** ** The methods of [YamlWorkaroundLoad] *)

(** The [while] test of [read_future_line]: [line_data.strip() == b""] or
    [line_data.startswith(b"#")] (on the raw line). *)
Definition future_skips (line_data : string) : bool :=
  String.eqb (Py.bstrip line_data) "" || Py.startswith "#" line_data.

Section Loader.

(** Bound on the iterations of each [while] loop of a call. *)
Variable fuel : nat.

(** The loop of [read_future_line]: skips lines whose [strip()] is [b""] or
    which start with [b"#"], accumulating [full_data]. *)
Fixpoint future_loop (n : nat) (full_data : string) : M (string * string) :=
  match n with
  | O => fun _ => OutOfFuel
  | S n' =>
      line_data <- readline ;;
      if future_skips line_data
      then future_loop n' (full_data ++ line_data)
      else ret (full_data ++ line_data, line_data)
  end.

(** [read_future_line]: yields [(full_data, line_data)] and seeks back by
    [len(full_data)].  The bodies of its [with] blocks do not touch the
    file, so the rewind is made before they run. *)
Definition read_future_line : M (string * string) :=
  '(full_data, line_data) <- future_loop fuel "" ;;
  seek_back (String.length full_data) ;;
  ret (full_data, line_data).

(** The [while] loop of [get_text_block]; [stop_string] is [None] for an
    unquoted (folded) block. *)
Fixpoint text_loop (n : nat) (stop_string : option string) (current_indent : Z)
  (ret_ : string) : M string :=
  match n with
  | O => fun _ => OutOfFuel
  | S n' =>
      raw_data <- readline ;;
      if String.eqb raw_data "" then ret (Py.strip ret_) else
      let decoded_data := raw_data in
      if String.eqb (Py.strip decoded_data) ""
      then text_loop n' stop_string current_indent (ret_ ++ newline)
      else
        match stop_string with
        | None =>
            if get_indent_level decoded_data <=? current_indent
            then seek_back (String.length raw_data) ;; ret (Py.strip ret_)
            else text_loop n' stop_string current_indent (ret_ ++ " " ++ Py.strip decoded_data)
        | Some q =>
            match find_stop_string decoded_data q with
            | None => text_loop n' stop_string current_indent (ret_ ++ " " ++ Py.strip decoded_data)
            | Some index =>
                if negb (Z.of_nat index =? Z.of_nat (String.length (Py.rstrip decoded_data)) - 1)
                then raise OutsideStop
                else ret (ret_ ++ " " ++ Py.rstrip_chars q (Py.strip decoded_data))
            end
        end
  end.

(** [get_text_block]. *)
Definition get_text_block (starting_string : string) (current_indent : Z) : M string :=
  match starting_string with
  | EmptyString => raise IndexError
  | String c _ =>
      if Py.in_chars (Py.dquote ++ "'") c then
        let stop_string := String c EmptyString in
        match find_stop_string (Py.str_drop 1 starting_string) stop_string with
        | None => text_loop fuel (Some stop_string) current_indent starting_string
        | Some index =>
            if negb (Z.of_nat index =? Z.of_nat (String.length starting_string) - 2)
            then raise OutsideStop
            else ret (Py.strip_chars stop_string starting_string)
        end
      else text_loop fuel None current_indent starting_string
  end.

(** [handle_dict]. *)
Definition handle_dict (decoded_data : string) (current_indent_level : Z) : M bool :=
  dict_data <- lift (get_dict_value decoded_data) ;;
  match dict_data with
  | None => ret false
  | Some (key, val) =>
      '(_, top) <- top_layer ;;
      c <- deref top ;;
      if negb (is_dict c) then raise ExpectedDict else
      (if is_empty_dict val then
         '(_, future_decoded_data) <- read_future_line ;;
         let future_indent_level := line_indent future_decoded_data in
         if future_indent_level <? current_indent_level then raise FutureIndent
         else if Py.startswith "- " (strip_indent future_decoded_data) then
           new_list <- alloc (CList []) ;;
           list_indent <- match get_list_indent future_decoded_data with
                          | Some n => ret (n - current_indent_level)
                          | None => raise TypeError
                          end ;;
           setitem top key (VRef new_list) ;;
           add_data_layer list_indent new_list
         else
           new_dict <- alloc (CDict []) ;;
           let dict_indent := future_indent_level - current_indent_level in
           setitem top key (VRef new_dict) ;;
           add_data_layer dict_indent new_dict
       else
         match val with
         | VStr s => block <- get_text_block s current_indent_level ;; setitem top key (VStr block)
         | _ => setitem top key val
         end) ;;
      ret true
  end.

(** [handle_list]. *)
Definition handle_list (decoded_data : string) (current_indent_level : Z) : M bool :=
  if Py.startswith "- " (strip_indent decoded_data) then
    '(_, top0) <- top_layer ;;
    c0 <- deref top0 ;;
    (if is_dict c0 && (get_indent_level decoded_data <? current_indent_level)
     then pop_data_layer else ret tt) ;;
    '(_, top) <- top_layer ;;
    c <- deref top ;;
    if negb (is_list c) then raise ExpectedList else
    dict_data <- lift (get_dict_value decoded_data) ;;
    match dict_data with
    | Some _ =>
        new_dict <- alloc (CDict []) ;;
        let dict_indent := get_stripped_list_indent decoded_data - current_indent_level in
        append top (VRef new_dict) ;;
        add_data_layer dict_indent new_dict ;;
        handle_dict decoded_data (current_indent_level + dict_indent) ;;
        ret true
    | None =>
        val <- lift (handle_value (strip_list_indent decoded_data)) ;;
        append top val ;;
        ret true
    end
  else ret false.

(** The last statement of [on_line]: list line, else dict line, else error. *)
Definition handle_line (decoded_data : string) (cur : Z) : M unit :=
  is_list_line <- handle_list decoded_data cur ;;
  if is_list_line then ret tt
  else
    is_dict_line <- handle_dict decoded_data cur ;;
    if is_dict_line then ret tt else raise CannotHandle.

(** [on_line]. *)
Definition on_line (decoded_data : string) : M unit :=
  if String.eqb (Py.strip decoded_data) "" then ret tt
  else if Py.startswith "#" (Py.strip decoded_data) then ret tt
  else
    let cur := line_indent decoded_data in
    ls <- gets data_layers ;;
    ls' <- lift (pop_layers cur ls) ;;
    modify (set_layers ls') ;;
    if layer_sum ls' <? cur then raise IndentError
    else handle_line decoded_data cur.

(** The [while (raw_data := file.readline()) != b""] loop of [load]; returns
    the final [line_count]. *)
Fixpoint main_loop (n : nat) (line_count : nat) : M nat :=
  match n with
  | O => fun _ => OutOfFuel
  | S n' =>
      raw_data <- readline ;;
      if String.eqb raw_data "" then ret line_count
      else on_line raw_data ;; main_loop n' (S line_count)
  end.

(** The body of [YamlWorkaroundLoad.load]: the root layer, the main loop,
    and [data_layers[0]] (the outermost layer). *)
Definition load_m : M (nat * nat) :=
  '(_, future_decoded_data) <- read_future_line ;;
  (if Py.startswith "- " (Py.strip future_decoded_data) then
     r <- alloc (CList []) ;; modify (set_layers [(2, r)])
   else
     r <- alloc (CDict []) ;; modify (set_layers [(0, r)])) ;;
  line_count <- main_loop fuel 0 ;;
  ls <- gets data_layers ;;
  match rev ls with
  | (_, root) :: _ => ret (line_count, root)
  | [] => raise IndexError
  end.

End Loader.

(** The value tree reachable from [v]: every reference replaced by the
    contents of its container.  A container only refers to containers
    allocated after it, so [length heap + 1] levels reach every one. *)
Fixpoint resolve (n : nat) (h : list container) (v : value) : value :=
  match n with
  | O => v
  | S n' =>
      match v with
      | VRef a =>
          match nth_error h a with
          | Some (CList vs) => VList (map (resolve n' h) vs)
          | Some (CDict kvs) => VDict (map (fun kv => (resolve n' h (fst kv), resolve n' h (snd kv))) kvs)
          | None => v
          end
      | _ => v
      end
  end.

Definition init_state (text : string) : state := mk_state [] [] (mk_file text 0).

(** [load(file_path)] on a file with contents [text]: [None] when a loop
    does not end within [fuel] iterations, otherwise the returned tree or
    the raised exception. *)
Definition load (fuel : nat) (text : string) : option (res value) :=
  match load_m fuel (init_state text) with
  | Done (_, root) s => Some (Ok (resolve (S (List.length (heap s))) (heap s) (VRef root)))
  | Raise e => Some (Err e)
  | OutOfFuel => None
  end.


(** [load] with enough iterations for every loop that ends: each iteration
    of a loop reads a line. *)
Definition load_text (text : string) : option (res value) :=
  load (S (String.length text)) text.

(** The physical lines of a text, each with its newline. *)
Fixpoint lines_of (s : string) : list string :=
  match s with
  | EmptyString => []
  | String c r =>
      if Ascii.eqb c Py.nl then String c EmptyString :: lines_of r
      else match lines_of r with
           | [] => [String c EmptyString]
           | l :: ls => String c l :: ls
           end
  end.

(** The text that is still to be read from the file. *)
Definition remaining (s : state) : string := Py.str_drop (pos (file s)) (contents (file s)).

(** Joins lines, each given without its newline. *)
Fixpoint text_of_lines (ls : list string) : string :=
  match ls with
  | [] => EmptyString
  | l :: r => l ++ newline ++ text_of_lines r
  end.

(* ================================================================== *)
(** * Properties *)

(** The examples of the format's description. *)
Example load_two_ints :
  load_text (text_of_lines ["a: 1"; "b: 2"]) = Some (Ok (VDict [(VStr "a", VInt 1); (VStr "b", VInt 2)])).
Proof. vm_compute. reflexivity. Qed.

Example load_nested_dict :
  load_text (text_of_lines ["a:"; "  b: 1"; "  c: 2"])
  = Some (Ok (VDict [(VStr "a", VDict [(VStr "b", VInt 1); (VStr "c", VInt 2)])])).
Proof. vm_compute. reflexivity. Qed.

Example load_nested_list :
  load_text (text_of_lines ["a:"; "  - 1"; "  - 2"]) = Some (Ok (VDict [(VStr "a", VList [VInt 1; VInt 2])])).
Proof. vm_compute. reflexivity. Qed.

Example load_list_of_dicts :
  load_text (text_of_lines ["a:"; "  - b: 1"; "    c: 2"; "  - b: 3"; "    c: 4"])
  = Some (Ok (VDict [(VStr "a", VList [VDict [(VStr "b", VInt 1); (VStr "c", VInt 2)];
                                        VDict [(VStr "b", VInt 3); (VStr "c", VInt 4)]])])).
Proof. vm_compute. reflexivity. Qed.

(** ** C3 *)

(** C3 (code defect): a double-quoted value continued on the next physical
    line comes back joined with one space but still carrying its opening
    quote, while the same value on one line has both quotes stripped. *)
Theorem quoted_block_keeps_opening_quote :
  load_text (text_of_lines ["a: " ++ Py.dquote ++ "x"; "  y" ++ Py.dquote]) = Some (Ok (VDict [(VStr "a", VStr (Py.dquote ++ "x y"))]))
  /\ load_text (text_of_lines ["a: " ++ Py.dquote ++ "x y" ++ Py.dquote]) = Some (Ok (VDict [(VStr "a", VStr "x y")])).
Proof. split; vm_compute; reflexivity. Qed.

(** ** C6 *)

(** C6 (code defect): the one-element flow sequence "[5]" decodes to the
    empty list; "[]" decodes to the same value. *)
Theorem single_flow_element_dropped :
  handle_value "[5]" = Ok (VList []) /\ handle_value "[]" = Ok (VList [])
  /\ load_text (text_of_lines ["a: [5]"]) = Some (Ok (VDict [(VStr "a", VList [])])).
Proof. repeat split; vm_compute; reflexivity. Qed.

(** ** C7 *)

(** C7 (code defect): an indented comment line between an open key and its
    nested mapping changes the result from a nested mapping to an indent
    error, because the lookahead only skips lines starting with '#' in
    column 0 while [on_line] skips them at any indent. *)
Theorem indented_comment_breaks_lookahead :
  load_text (text_of_lines ["a:"; "  b: 1"])
    = Some (Ok (VDict [(VStr "a", VDict [(VStr "b", VInt 1)])]))
  /\ load_text (text_of_lines ["a:"; "    # c"; "  b: 1"]) = Some (Err IndentError)
  /\ future_skips ("    # c" ++ newline) = false.
Proof. repeat split; vm_compute; reflexivity. Qed.

(** ** C8 *)

(** C8 (code defect): the item "- -3" stores Int 3: [strip_list_indent]
    strips every leading '-' and ' ', so the payload's own '-' is lost; the
    payload "-3" after the marker decodes to the String "-3". *)
Theorem list_item_payload_loses_dash :
  load_text (text_of_lines ["- -3"]) = Some (Ok (VList [VInt 3]))
  /\ strip_list_indent "- -3" = "3"
  /\ handle_value "-3" = Ok (VStr "-3").
Proof. repeat split; vm_compute; reflexivity. Qed.


(** ** C5 *)

(** At end of file [readline] returns [b""], which the lookahead skips as a
    blank line without moving: the lookahead never ends there. *)
Lemma future_loop_at_eof : forall n full_data s,
  remaining s = EmptyString -> future_loop n full_data s = OutOfFuel.
Proof.
  induction n as [|n IH]; intros full_data s Hrem; [reflexivity|].
  cbn [future_loop]. unfold bind at 1, readline. unfold remaining in Hrem.
  rewrite Hrem. cbn - [future_loop].
  apply IH. unfold remaining; cbn. rewrite Nat.add_0_r. exact Hrem.
Qed.

Lemma read_future_line_at_eof : forall n s,
  remaining s = EmptyString -> read_future_line n s = OutOfFuel.
Proof.
  intros n s H. unfold read_future_line, bind at 1. rewrite future_loop_at_eof; auto.
Qed.

(** Runs the loader symbolically in the iteration bound, one method at a time. *)
Ltac run_loader :=
  repeat (progress (unfold bind, ret, readline, main_loop, on_line, handle_line,
                    handle_list, handle_dict, read_future_line, lift, gets, modify,
                    top_layer, deref; simpl)).

(** C5 (code defect): [load] does not end on an empty file, nor on a file
    whose last significant line is a key with no inline value: for every
    bound on the loop iterations, the bound is exhausted. *)
Theorem load_diverges_at_eof : forall fuel,
  load fuel "" = None /\ load fuel (text_of_lines ["a:"]) = None.
Proof.
  intros fuel. split.
  - unfold load, load_m, bind at 1. rewrite read_future_line_at_eof; reflexivity.
  - destruct fuel as [|f]; [reflexivity|].
    unfold load, load_m. run_loader.
    rewrite future_loop_at_eof; reflexivity.
Qed.

(** ** C4 *)

Lemma lstrip_by_length : forall p s, (String.length (Py.lstrip_by p s) <= String.length s)%nat.
Proof.
  intros p s; induction s as [|c r IH]; simpl; [lia|].
  destruct (p c); simpl; lia.
Qed.

Lemma line_indent_nonneg : forall line, 0 <= line_indent line.
Proof.
  intros line. unfold line_indent, int_or, get_list_indent, get_indent_level, strip_indent,
    Py.lstrip_chars.
  pose proof (lstrip_by_length (Py.in_chars " ") line).
  destruct (Py.startswith "- " _).
  - destruct (Z.of_nat _ + 2 =? 0); lia.
  - lia.
Qed.

(** The dedent loop pops the innermost layers while the line's indent is
    below their sum, and stops at the first stack whose sum is not above. *)
Lemma pop_layers_spec : forall L ls, 0 <= L ->
  exists popped ls',
    pop_layers L ls = Ok ls' /\ ls = (popped ++ ls')%list /\ layer_sum ls' <= L /\
    (forall k, (k < List.length popped)%nat -> L < layer_sum (skipn k ls)).
Proof.
  intros L ls HL. induction ls as [|x r IH].
  - exists [], []. simpl. destruct (L <? 0) eqn:E; [apply Z.ltb_lt in E; lia|].
    split; [reflexivity|]. split; [reflexivity|]. split; [simpl; lia|].
    intros k Hk; simpl in Hk; lia.
  - cbn [pop_layers]. destruct (L <? layer_sum (x :: r)) eqn:E.
    + destruct IH as (popped & ls' & Hp & Heq & Hs & Hk).
      exists (x :: popped), ls'. repeat split; auto.
      * simpl; congruence.
      * intros [|k] Hlt; simpl.
        -- apply Z.ltb_lt in E. exact E.
        -- apply Hk. simpl in Hlt; lia.
    + exists [], (x :: r). apply Z.ltb_ge in E.
      repeat split; auto. intros k Hk; simpl in Hk; lia.
Qed.

(** C4: before a significant line is interpreted, [on_line] pops layers
    while the line's indent ([line_indent]: the column after the "- " marker
    for a list item, the count of leading spaces otherwise) is below the sum
    of the layers' relative indents; then it raises the indent error unless
    the indent equals the remaining sum, and otherwise interprets the line on
    the popped stack.  "a:\n  b: 1\n c: 2\n" raises the indent error. *)
Theorem dedent_rule :
  (forall fuel line s,
     Py.strip line <> EmptyString -> Py.startswith "#" (Py.strip line) = false ->
     exists popped ls',
       pop_layers (line_indent line) (data_layers s) = Ok ls' /\
       data_layers s = (popped ++ ls')%list /\
       (forall k, (k < List.length popped)%nat ->
                  line_indent line < layer_sum (skipn k (data_layers s))) /\
       layer_sum ls' <= line_indent line /\
       on_line fuel line s =
         (if layer_sum ls' =? line_indent line
          then handle_line fuel line (line_indent line) (set_layers ls' s)
          else Raise IndentError))
  /\ load_text (text_of_lines ["a:"; "  b: 1"; " c: 2"]) = Some (Err IndentError).
Proof.
  split; [|vm_compute; reflexivity].
  intros fuel line s Hblank Hcomment.
  destruct (pop_layers_spec (line_indent line) (data_layers s) (line_indent_nonneg line))
    as (popped & ls' & Hp & Heq & Hs & Hk).
  exists popped, ls'. repeat split; auto.
  unfold on_line. apply String.eqb_neq in Hblank. rewrite Hblank, Hcomment.
  unfold bind, gets, lift, modify. rewrite Hp. cbn.
  destruct (layer_sum ls' =? line_indent line) eqn:E.
  - apply Z.eqb_eq in E. rewrite E, Z.ltb_irrefl. reflexivity.
  - apply Z.eqb_neq in E. replace (layer_sum ls' <? line_indent line) with true
      by (symmetry; apply Z.ltb_lt; lia).
    reflexivity.
Qed.

(** ** C9 *)

(** Concatenation of physical lines (each with its newline). *)
Definition cat_lines (ls : list string) : string := fold_right String.append EmptyString ls.

Lemma str_app_assoc : forall a b c : string, a ++ (b ++ c) = (a ++ b) ++ c.
Proof. induction a as [|x a IH]; intros b c; simpl; [reflexivity|]. now rewrite IH. Qed.

Lemma str_app_nil_r : forall a : string, a ++ EmptyString = a.
Proof. induction a as [|x a IH]; simpl; [reflexivity|]. now rewrite IH. Qed.

Lemma str_length_app : forall a b : string,
  String.length (a ++ b) = (String.length a + String.length b)%nat.
Proof. induction a as [|x a IH]; intros b; simpl; [reflexivity|]. now rewrite IH. Qed.

Lemma str_drop_add : forall a b s, Py.str_drop (a + b) s = Py.str_drop b (Py.str_drop a s).
Proof.
  induction a as [|a IH]; intros b s; [reflexivity|].
  destruct s as [|c r]; simpl; [destruct b; reflexivity|]. apply IH.
Qed.

Lemma readline_of_lines : forall s, readline_of s = hd EmptyString (lines_of s).
Proof.
  induction s as [|c r IH]; [reflexivity|]. simpl.
  destruct (Ascii.eqb c Py.nl); [reflexivity|].
  destruct (lines_of r) as [|l ls]; simpl in *; rewrite IH; reflexivity.
Qed.

Lemma lines_after_readline : forall s,
  lines_of (Py.str_drop (String.length (readline_of s)) s) = tl (lines_of s).
Proof.
  induction s as [|c r IH]; [reflexivity|]. simpl.
  destruct (Ascii.eqb c Py.nl); [reflexivity|]. simpl.
  rewrite IH. destruct (lines_of r); reflexivity.
Qed.

Lemma set_file_same : forall s, set_file (mk_file (contents (file s)) (pos (file s))) s = s.
Proof. intros [h l [c p]]; reflexivity. Qed.

Lemma set_file_set_file : forall f g s, set_file f (set_file g s) = set_file f s.
Proof. intros f g [h l x]; reflexivity. Qed.

(** The loop of the lookahead reads the skipped lines and the first line it
    does not skip, accumulating exactly those bytes. *)
Lemma future_loop_reads : forall skipped line rest n full_data s,
  lines_of (remaining s) = (skipped ++ line :: rest)%list ->
  Forall (fun l => future_skips l = true) skipped ->
  future_skips line = false ->
  (List.length skipped < n)%nat ->
  future_loop n full_data s =
    Done (full_data ++ (cat_lines skipped ++ line), line)
         (set_file (mk_file (contents (file s))
                            (pos (file s) + String.length (cat_lines skipped ++ line))) s).
Proof.
  induction skipped as [|l skipped IH]; intros line rest n full_data s Hl Hsk Hline Hn;
    (destruct n as [|n]; [simpl in Hn; lia|]);
    cbn [future_loop]; unfold bind at 1, readline; rewrite readline_of_lines;
    fold (remaining s); rewrite Hl; cbn [hd List.app].
  - rewrite Hline. unfold ret. reflexivity.
  - inversion Hsk as [|? ? Hl1 Hsk']; subst. rewrite Hl1.
    rewrite (IH line rest).
    + rewrite set_file_set_file. unfold cat_lines. cbn [fold_right].
      rewrite <- !str_app_assoc. f_equal. unfold set_file. cbn [file pos contents].
      rewrite !str_length_app. do 2 f_equal. lia.
    + pose proof (lines_after_readline (remaining s)) as Ht.
      rewrite readline_of_lines, Hl in Ht. cbn [hd tl List.app] in Ht.
      unfold remaining, set_file in *. cbn [file contents pos].
      rewrite str_drop_add. exact Ht.
    + exact Hsk'.
    + exact Hline.
    + simpl in Hn; lia.
Qed.

Lemma rev_str_app : forall a b, Py.rev_str (a ++ b) = Py.rev_str b ++ Py.rev_str a.
Proof.
  induction a as [|c a IH]; intros b; simpl.
  - now rewrite str_app_nil_r.
  - rewrite IH. now rewrite str_app_assoc.
Qed.

Lemma lstrip_by_all : forall p s, Py.all_chars p s = true -> Py.lstrip_by p s = EmptyString.
Proof.
  intros p s; induction s as [|c r IH]; simpl; [reflexivity|].
  intros H. apply andb_prop in H as [H1 H2]. rewrite H1. auto.
Qed.

Lemma lstrip_by_empty : forall p s, Py.lstrip_by p s = EmptyString -> Py.all_chars p s = true.
Proof.
  intros p s; induction s as [|c r IH]; simpl; [reflexivity|].
  destruct (p c); simpl; [auto|discriminate].
Qed.

Lemma lstrip_by_head : forall p s c r, Py.lstrip_by p s = String c r -> p c = false.
Proof.
  intros p s; induction s as [|d s IH]; simpl; intros c r H; [discriminate|].
  destruct (p d) eqn:E; [eauto|]. injection H as <- _. exact E.
Qed.

(** A character the set does not strip survives at the end. *)
Lemma lstrip_by_keeps_last : forall p x c, p c = false ->
  exists y, Py.lstrip_by p (x ++ String c EmptyString) = y ++ String c EmptyString.
Proof.
  intros p x c Hc. induction x as [|d x IH]; simpl.
  - rewrite Hc. exists EmptyString. reflexivity.
  - destruct (p d); [exact IH|]. exists (String d x). reflexivity.
Qed.

Lemma strip_by_empty : forall p s, Py.strip_by p s = EmptyString -> Py.all_chars p s = true.
Proof.
  intros p s H. apply lstrip_by_empty.
  destruct (Py.lstrip_by p s) as [|c r] eqn:E; [reflexivity|].
  exfalso. apply lstrip_by_head in E as Hc.
  unfold Py.strip_by, Py.rstrip_by in H. rewrite E in H. cbn [Py.rev_str] in H.
  destruct (lstrip_by_keeps_last p (Py.rev_str r) c Hc) as [y Hy].
  rewrite Hy, rev_str_app in H. discriminate H.
Qed.

Lemma strip_by_all : forall p s, Py.all_chars p s = true -> Py.strip_by p s = EmptyString.
Proof.
  intros p s H. unfold Py.strip_by, Py.rstrip_by. rewrite (lstrip_by_all p s H). reflexivity.
Qed.

Lemma all_chars_impl : forall (p q : ascii -> bool) s,
  (forall c, p c = true -> q c = true) -> Py.all_chars p s = true -> Py.all_chars q s = true.
Proof.
  intros p q s Hpq; induction s as [|c r IH]; simpl; [auto|].
  intros H. apply andb_prop in H as [H1 H2]. rewrite (Hpq c H1). simpl. auto.
Qed.

Lemma bytes_space_str_space : forall c, Py.bytes_isspace c = true -> Py.str_isspace c = true.
Proof.
  intros c. unfold Py.bytes_isspace, Py.str_isspace.
  rewrite !Bool.orb_true_iff, !Bool.andb_true_iff, !Nat.leb_le, Nat.eqb_eq. lia.
Qed.

(** A raw line starting with '#' still starts with '#' once stripped. *)
Lemma strip_keeps_hash : forall l,
  Py.startswith "#" l = true -> Py.startswith "#" (Py.strip l) = true.
Proof.
  intros [|c r] H; [discriminate|].
  unfold Py.startswith in H. cbn [String.prefix] in H.
  destruct (Ascii.ascii_dec "#"%char c) as [<-|]; [|discriminate].
  unfold Py.strip, Py.strip_by, Py.rstrip_by. cbn [Py.lstrip_by].
  replace (Py.str_isspace "#") with false by reflexivity.
  cbn [Py.rev_str].
  destruct (lstrip_by_keeps_last Py.str_isspace (Py.rev_str r) "#" eq_refl) as [y Hy].
  rewrite Hy, rev_str_app. unfold Py.startswith. cbn [Py.rev_str String.append String.prefix].
  destruct (Ascii.ascii_dec "#"%char "#"%char); [|congruence]. destruct (Py.rev_str y); reflexivity.
Qed.

(** A significant line (not blank, not a comment once stripped) is never
    skipped by the lookahead. *)
Lemma significant_not_skipped : forall l,
  Py.strip l <> EmptyString -> Py.startswith "#" (Py.strip l) = false ->
  future_skips l = false.
Proof.
  intros l Hb Hc. unfold future_skips.
  destruct (String.eqb (Py.bstrip l) "") eqn:E.
  - apply String.eqb_eq, strip_by_empty in E.
    exfalso. apply Hb. apply strip_by_all.
    exact (all_chars_impl _ _ l bytes_space_str_space E).
  - simpl. destruct (Py.startswith "#" l) eqn:H; [|reflexivity].
    apply strip_keeps_hash in H. congruence.
Qed.





(** A stack of two dict layers, the inner one indented by 2, and an
    exhausted file. *)
Definition two_layer_state : state :=
  mk_state [CDict [(VStr "a", VRef 1)]; CDict [(VStr "b", VInt 1)]] [(2, 1%nat); (0, 0%nat)]
           (mk_file EmptyString 0).

Lemma dedent_rule_witness :
  on_line 10%nat (" c: 2" ++ newline) two_layer_state = Raise IndentError.
Proof.
  destruct (proj1 dedent_rule 10%nat (" c: 2" ++ newline) two_layer_state)
    as (popped & ls' & Hp & _ & _ & _ & Hon).
  - vm_compute. discriminate.
  - vm_compute. reflexivity.
  - rewrite Hon. vm_compute in Hp. injection Hp as <-. vm_compute. reflexivity.
Defined.



(** ** C2 *)

Lemma is_digit_not_dot : forall c, Py.is_digit c = true -> c <> "."%char.
Proof. intros c H ->. discriminate H. Qed.

Lemma prefix_dot : forall c r,
  String.prefix "." (String c r) = if Ascii.ascii_dec "."%char c then true else false.
Proof.
  intros c r. cbn [String.prefix]. destruct (Ascii.ascii_dec "."%char c); [destruct r|]; reflexivity.
Qed.

(** Removing the dots leaves a digit string unchanged. *)
Lemma replace_dot_digits : forall g, Py.all_chars Py.is_digit g = true -> Py.replace "." "" g = g.
Proof.
  unfold Py.replace. induction g as [|c r IH]; intros H; [reflexivity|].
  cbn [Py.all_chars] in H. apply andb_prop in H as [Hc Hr].
  cbn [String.length Py.replace_fuel]. rewrite prefix_dot.
  destruct (Ascii.ascii_dec "."%char c) as [E|_].
  - exfalso. exact (is_digit_not_dot c Hc (eq_sym E)).
  - rewrite IH; auto.
Qed.

(** No dot is left after [replace(".", "")]. *)
Lemma replace_dot_count : forall n g, (String.length g <= n)%nat ->
  Py.count_char "." (Py.replace_fuel n "." "" g) = 0%nat.
Proof.
  induction n as [|n IH]; intros g Hg.
  - destruct g; [reflexivity|simpl in Hg; lia].
  - destruct g as [|c r]; [reflexivity|]. cbn [Py.replace_fuel]. rewrite prefix_dot.
    simpl in Hg. destruct (Ascii.ascii_dec "."%char c) as [E|E].
    + cbn [String.length Py.str_drop String.append]. apply IH. lia.
    + cbn [Py.count_char]. rewrite IH by lia.
      destruct (Ascii.eqb "."%char c) eqn:Q; [apply Ascii.eqb_eq in Q; contradiction|reflexivity].
Qed.

Ltac open_handle_value s g :=
  unfold handle_value; destruct (String.length s); cbn [handle_value_fuel];
  change (Py.strip s) with g.

(** C2 (as amended): on ASCII text, after trimming, [handle_value] returns
    Int for a non-empty run of at most 4300 digits and raises [int()]'s
    [ValueError] for a longer run; it returns the Float [float()] makes
    (the double nearest to the decimal value) for digits with exactly one
    '.'; Bool for "true" and "false"; and the trimmed text as a String when
    removing its dots does not leave a non-empty run of digits and it is
    neither "true", "false" nor wrapped in '[' ']'.  A leading '-' is not
    numeric: "-5" decodes to the String "-5". *)
Theorem handle_value_scalars :
  (forall s, Py.ascii_text s = true -> let g := Py.strip s in
   (Py.isnumeric g = true -> (String.length g <= 4300)%nat ->
      handle_value s = Ok (VInt (Py.digits_acc 0 g))) /\
   (Py.isnumeric g = true -> (4300 < String.length g)%nat -> handle_value s = Err IntValueError) /\
   (Py.count_char "." g = 1%nat -> Py.isnumeric (Py.replace "." "" g) = true ->
      handle_value s = Ok (VFloat (round_double (Py.digits_acc 0 g) (Py.frac_len g)))) /\
   (g = "true" -> handle_value s = Ok (VBool true)) /\
   (g = "false" -> handle_value s = Ok (VBool false)) /\
   (Py.isnumeric (Py.replace "." "" g) = false -> g <> "true" -> g <> "false" ->
      (Py.startswith "[" g && Py.endswith "]" g) = false ->
      handle_value s = Ok (VStr g)))
  /\ handle_value "-5" = Ok (VStr "-5").
Proof.
  split; [|vm_compute; reflexivity].
  intros s _ g. repeat split.
  - intros H Hl.
    assert (Hd : Py.all_chars Py.is_digit g = true)
      by (unfold Py.isnumeric in H; apply andb_prop in H; tauto).
    assert (Hl' : (4300 <? String.length g)%nat = false) by (apply Nat.ltb_ge; exact Hl).
    open_handle_value s g.
    all: rewrite (replace_dot_digits g Hd), H, String.eqb_refl; cbn [negb];
      unfold py_int; rewrite Hl'; reflexivity.
  - intros H Hl.
    assert (Hd : Py.all_chars Py.is_digit g = true)
      by (unfold Py.isnumeric in H; apply andb_prop in H; tauto).
    assert (Hl' : (4300 <? String.length g)%nat = true) by (apply Nat.ltb_lt; exact Hl).
    open_handle_value s g.
    all: rewrite (replace_dot_digits g Hd), H, String.eqb_refl; cbn [negb];
      unfold py_int; rewrite Hl'; reflexivity.
  - intros H1 H2.
    assert (Hne : String.eqb (Py.replace "." "" g) g = false).
    { apply String.eqb_neq. intros E.
      pose proof (replace_dot_count (String.length g) g (le_n _)) as C.
      unfold Py.replace in E. rewrite E in C. congruence. }
    open_handle_value s g.
    all: rewrite H2, Hne; cbn [negb]; unfold py_float; rewrite H1; reflexivity.
  - intros H. open_handle_value s g. all: rewrite H; reflexivity.
  - intros H. open_handle_value s g. all: rewrite H; reflexivity.
  - intros H1 H2 H3 H4. apply String.eqb_neq in H2, H3.
    open_handle_value s g. all: rewrite H1, H2, H3, H4; reflexivity.
Qed.

Lemma handle_value_scalars_witness :
  handle_value " 42 " = Ok (VInt 42) /\ handle_value "1.5" = Ok (VFloat (DFin 3 (-1)))
  /\ handle_value "abc" = Ok (VStr "abc").
Proof.
  destruct (proj1 handle_value_scalars " 42 " ltac:(reflexivity)) as (Hi & _ & _ & _ & _ & _).
  destruct (proj1 handle_value_scalars "1.5" ltac:(reflexivity)) as (_ & _ & Hf & _ & _ & _).
  destruct (proj1 handle_value_scalars "abc" ltac:(reflexivity)) as (_ & _ & _ & _ & _ & Hs).
  split; [|split].
  - rewrite Hi; [reflexivity|reflexivity|vm_compute; lia].
  - rewrite Hf; vm_compute; reflexivity.
  - rewrite Hs; [reflexivity|reflexivity|discriminate|discriminate|reflexivity].
Defined.

(** C2: "-5" is not decoded as an Int and "1.2.3" raises [ValueError] in
    [float()] instead of decoding to a String. *)
Lemma handle_value_minus_and_dots :
  handle_value "-5" = Ok (VStr "-5") /\ handle_value "1.2.3" = Err FloatValueError.
Proof. split; vm_compute; reflexivity. Qed.

(** ** The heap invariant (C1, C10) *)

(** A value with no reference and no dict inside: what [handle_value] returns. *)
Fixpoint plain (v : value) : bool :=
  match v with
  | VList vs => forallb plain vs
  | VDict _ | VRef _ => false
  | _ => true
  end.

(** A value stored in a container: a reference or a plain value. *)
Definition stored_ok (v : value) : Prop :=
  match v with VRef _ => True | _ => plain v = true end.

(** No key of the entries equals (Python [==]) a later key. *)
Fixpoint distinct_keys (kvs : list (value * value)) : Prop :=
  match kvs with
  | [] => True
  | (k, _) :: r => Forall (fun kv => py_eqb k (fst kv) = false) r /\ distinct_keys r
  end.

Definition container_ok (c : container) : Prop :=
  match c with
  | CList vs => Forall stored_ok vs
  | CDict kvs => Forall (fun kv => hashable (fst kv) = true /\ stored_ok (snd kv)) kvs
                 /\ distinct_keys kvs
  end.

Definition heap_ok (h : list container) : Prop := Forall container_ok h.

(** Every dict node of a value tree satisfies [P]. *)
Fixpoint all_dicts (P : list (value * value) -> Prop) (v : value) : Prop :=
  match v with
  | VList vs =>
      (fix go (l : list value) : Prop :=
         match l with [] => True | x :: r => all_dicts P x /\ go r end) vs
  | VDict kvs =>
      P kvs /\
      (fix go (l : list (value * value)) : Prop :=
         match l with [] => True | (_, x) :: r => all_dicts P x /\ go r end) kvs
  | _ => True
  end.

(** [d[k]]: the value of the first entry whose key equals [k]. *)
Fixpoint dict_get (k : value) (kvs : list (value * value)) : option value :=
  match kvs with
  | [] => None
  | (k', v') :: r => if py_eqb k' k then Some v' else dict_get k r
  end.

(** A computation that keeps the heap invariant when it returns. *)
Definition keeps {A} (m : M A) : Prop :=
  forall s a s', heap_ok (heap s) -> m s = Done a s' -> heap_ok (heap s').

Lemma keeps_ret : forall A (a : A), keeps (ret a).
Proof. intros A a s b s' H E. injection E as _ <-. exact H. Qed.

Lemma keeps_raise : forall A e, keeps (@raise A e).
Proof. intros A e s b s' H E. discriminate E. Qed.

Lemma keeps_bind : forall A B (m : M A) (k : A -> M B),
  keeps m -> (forall a, keeps (k a)) -> keeps (bind m k).
Proof.
  intros A B m k Hm Hk s b s' H E. unfold bind in E.
  destruct (m s) as [a s1| |] eqn:Em; try discriminate.
  exact (Hk a s1 b s' (Hm s a s1 H Em) E).
Qed.

(** A bind on a pure result: the continuation may use how it was obtained. *)
Lemma keeps_bind_lift : forall A B (r : res A) (k : A -> M B),
  (forall a, r = Ok a -> keeps (k a)) -> keeps (bind (lift r) k).
Proof.
  intros A B r k Hk s b s' H E. unfold bind, lift in E.
  destruct r as [a|e]; [|discriminate]. exact (Hk a eq_refl s b s' H E).
Qed.

Lemma keeps_state : forall A (m : M A),
  (forall s a s', m s = Done a s' -> heap s' = heap s) -> keeps m.
Proof. intros A m Hm s a s' H E. rewrite (Hm s a s' E). exact H. Qed.

Lemma Forall_upd_nth : forall A (P : A -> Prop) n x l,
  Forall P l -> P x -> Forall P (upd_nth n x l).
Proof.
  intros A P n x l; revert n; induction l as [|y l IH]; intros [|n] Hl Hx; simpl; auto.
  - inversion Hl; subst; constructor; auto.
  - inversion Hl; subst; constructor; auto.
Qed.

Lemma Forall_nth_error : forall A (P : A -> Prop) n x l,
  Forall P l -> nth_error l n = Some x -> P x.
Proof.
  intros A P n x l Hl Hn. apply nth_error_In in Hn. rewrite Forall_forall in Hl. auto.
Qed.

Lemma dict_set_Forall : forall (P Q : value -> Prop) k v kvs,
  Forall (fun kv => P (fst kv) /\ Q (snd kv)) kvs -> P k -> Q v ->
  Forall (fun kv => P (fst kv) /\ Q (snd kv)) (dict_set k v kvs).
Proof.
  intros P Q k v kvs; induction kvs as [|[k' v'] r IH]; intros H Hk Hv; simpl.
  - constructor; [split; assumption|constructor].
  - inversion H as [|? ? [Hk' Hv'] Hr]; subst.
    destruct (py_eqb k' k); constructor; simpl; auto.
Qed.

Lemma dict_set_keys_Forall : forall (P : value -> Prop) k v kvs,
  Forall (fun kv => P (fst kv)) kvs -> P k -> Forall (fun kv => P (fst kv)) (dict_set k v kvs).
Proof.
  intros P k v kvs; induction kvs as [|[k' v'] r IH]; intros H Hk; simpl.
  - constructor; [exact Hk|constructor].
  - inversion H; subst. destruct (py_eqb k' k); constructor; simpl; auto.
Qed.

Lemma dict_set_distinct : forall k v kvs, distinct_keys kvs -> distinct_keys (dict_set k v kvs).
Proof.
  intros k v kvs; induction kvs as [|[k' v'] r IH]; simpl; intros H.
  - split; [constructor|exact I].
  - destruct H as [Hf Hd]. destruct (py_eqb k' k) eqn:E; simpl.
    + split; assumption.
    + split; [|auto]. apply (dict_set_keys_Forall (fun x => py_eqb k' x = false)); auto.
Qed.

Lemma keeps_lift : forall A (r : res A), keeps (lift r).
Proof.
  intros A r. apply keeps_state. intros s a s' E. unfold lift in E.
  destruct r; [injection E; intros; subst; reflexivity|discriminate].
Qed.

Lemma keeps_gets : forall A (f : state -> A), keeps (gets f).
Proof. intros A f. apply keeps_state. intros s a s' E. injection E; intros; subst; reflexivity. Qed.

Lemma keeps_set_layers : forall l, keeps (modify (set_layers l)).
Proof. intros l. apply keeps_state. intros s a s' E. injection E; intros; subst; reflexivity. Qed.

Lemma keeps_readline : keeps readline.
Proof. apply keeps_state. intros s a s' E. injection E; intros; subst; reflexivity. Qed.

Lemma keeps_seek_back : forall n, keeps (seek_back n).
Proof. intros n. apply keeps_state. intros s a s' E. injection E; intros; subst; reflexivity. Qed.

Lemma keeps_top_layer : keeps top_layer.
Proof.
  apply keeps_state. intros s a s' E. unfold top_layer in E.
  destruct (data_layers s); [discriminate|injection E; intros; subst; reflexivity].
Qed.

Lemma keeps_deref : forall a, keeps (deref a).
Proof.
  intros a. apply keeps_state. intros s c s' E. unfold deref in E.
  destruct (nth_error (heap s) a); [injection E; intros; subst; reflexivity|discriminate].
Qed.

Lemma keeps_add_data_layer : forall i p, keeps (add_data_layer i p).
Proof. intros i p. apply keeps_state. intros s a s' E. injection E; intros; subst; reflexivity. Qed.

Lemma keeps_pop_data_layer : keeps pop_data_layer.
Proof.
  apply keeps_state. intros s a s' E. unfold pop_data_layer in E.
  destruct (data_layers s); [discriminate|injection E; intros; subst; reflexivity].
Qed.

Lemma keeps_alloc : forall c, container_ok c -> keeps (alloc c).
Proof.
  intros c Hc s a s' H E. injection E as _ <-. simpl.
  apply Forall_app; split; [exact H|constructor; [exact Hc|constructor]].
Qed.

Lemma keeps_alloc_list : keeps (alloc (CList [])).
Proof. apply keeps_alloc. constructor. Qed.

Lemma keeps_alloc_dict : keeps (alloc (CDict [])).
Proof. apply keeps_alloc. split; [constructor|exact I]. Qed.

Lemma keeps_setitem : forall a k v, stored_ok v -> keeps (setitem a k v).
Proof.
  intros a k v Hv s u s' H E. unfold setitem, bind, deref in E.
  destruct (nth_error (heap s) a) as [c|] eqn:N; [|discriminate].
  destruct c as [vs|kvs]; [discriminate|].
  destruct (hashable k) eqn:Hk; [|discriminate].
  injection E as _ <-. simpl. apply Forall_upd_nth; [exact H|].
  destruct (Forall_nth_error _ _ _ _ _ H N) as [Hf Hd]. split.
  - apply (dict_set_Forall (fun x => hashable x = true) stored_ok); auto.
  - apply dict_set_distinct; exact Hd.
Qed.

Lemma keeps_append : forall a v, stored_ok v -> keeps (append a v).
Proof.
  intros a v Hv s u s' H E. unfold append, bind, deref in E.
  destruct (nth_error (heap s) a) as [c|] eqn:N; [|discriminate].
  destruct c as [vs|kvs]; [|discriminate].
  injection E as _ <-. simpl. apply Forall_upd_nth; [exact H|].
  pose proof (Forall_nth_error _ _ _ _ _ H N) as Hc. simpl in Hc |- *.
  apply Forall_app; split; [exact Hc|constructor; [exact Hv|constructor]].
Qed.

Lemma plain_stored_ok : forall v, plain v = true -> stored_ok v.
Proof. intros [] H; simpl; auto. Qed.

Lemma map_res_Forall : forall A B (f : A -> res B) (P : B -> Prop) l ys,
  (forall x y, f x = Ok y -> P y) -> map_res f l = Ok ys -> Forall P ys.
Proof.
  intros A B f P l; induction l as [|x l IH]; intros ys Hf E; simpl in E.
  - injection E as <-. constructor.
  - destruct (f x) as [y|e] eqn:Ex; [|discriminate].
    destruct (map_res f l) as [ys'|e] eqn:El; [|discriminate].
    injection E as <-. constructor; eauto.
Qed.

Lemma handle_value_fuel_plain : forall n s v, handle_value_fuel n s = Ok v -> plain v = true.
Proof.
  induction n as [|n IH]; intros s v E; cbn [handle_value_fuel] in E;
    repeat match type of E with
           | context [if ?b then _ else _] => destruct b
           end;
    unfold py_float, py_int in E;
    repeat match type of E with
           | context [if ?b then _ else _] => destruct b
           end;
    try (injection E as <-; reflexivity); try discriminate.
  destruct (map_res (handle_value_fuel n) _) as [ys|e] eqn:Em; [|discriminate].
  injection E as <-. simpl. apply forallb_forall. intros x Hx.
  pose proof (map_res_Forall _ _ _ (fun y => plain y = true) _ _ IH Em) as Hf.
  rewrite Forall_forall in Hf. auto.
Qed.

Lemma handle_value_plain : forall s v, handle_value s = Ok v -> plain v = true.
Proof. intros s v. apply handle_value_fuel_plain. Qed.

Lemma dict_scan_value : forall g i rest k v,
  dict_scan g i rest = Ok (Some (k, v)) -> plain k = true /\ (plain v = true \/ v = VDict []).
Proof.
  intros g i rest; revert i; induction rest as [|c r IH]; intros i k v E; simpl in E;
    [discriminate|].
  destruct (Ascii.eqb c ":"); [|eauto].
  destruct (_ =? _)%nat.
  - destruct (handle_value _) as [k'|e] eqn:Ek; [|discriminate].
    injection E as <- <-. split; [eapply handle_value_plain; eauto|right; reflexivity].
  - destruct (Py.startswith " " r); [|eauto].
    destruct (handle_value (strip_list_indent _)) as [k'|e] eqn:Ek; [|discriminate].
    match type of E with
    | context [match handle_value ?x with _ => _ end] =>
        destruct (handle_value x) as [v'|e] eqn:Ev; [|discriminate]
    end.
    injection E as <- <-. split; [eapply handle_value_plain; eauto|left; eapply handle_value_plain; eauto].
Qed.

Lemma get_dict_value_plain : forall d k v,
  get_dict_value d = Ok (Some (k, v)) -> plain k = true /\ (plain v = true \/ v = VDict []).
Proof. intros d k v. apply dict_scan_value. Qed.

Lemma keeps_out_of_fuel : forall A, keeps (fun _ : state => @OutOfFuel A).
Proof. intros A s a s' H E. discriminate E. Qed.

Create HintDb keeps_db.
#[local] Hint Resolve keeps_ret keeps_raise keeps_lift keeps_gets keeps_set_layers
  keeps_readline keeps_seek_back keeps_top_layer keeps_deref keeps_add_data_layer
  keeps_pop_data_layer keeps_alloc_list keeps_alloc_dict keeps_out_of_fuel : keeps_db.

(** One step through a monadic body: binds, branches and primitives. *)
Ltac keeps_step :=
  match goal with
  | |- keeps (bind (lift _) _) => apply keeps_bind_lift; intros ? ?
  | |- keeps (bind _ _) => apply keeps_bind; [|intros ?]
  | |- keeps (if ?b then _ else _) => destruct b eqn:?
  | |- keeps (match ?x with _ => _ end) => destruct x
  | |- keeps (setitem _ _ _) => apply keeps_setitem; try exact I; try reflexivity
  | |- keeps (append _ _) => apply keeps_append; try exact I; try reflexivity
  | |- keeps _ => solve [eauto with keeps_db]
  end.

Ltac keeps_tac := repeat keeps_step.

Lemma keeps_future_loop : forall n fd, keeps (future_loop n fd).
Proof. intros n; induction n as [|n IH]; intros fd; simpl; keeps_tac. Qed.
#[local] Hint Resolve keeps_future_loop : keeps_db.

Lemma keeps_read_future_line : forall fuel, keeps (read_future_line fuel).
Proof. intros fuel. unfold read_future_line. keeps_tac. Qed.
#[local] Hint Resolve keeps_read_future_line : keeps_db.

Lemma keeps_text_loop : forall n q cur r, keeps (text_loop n q cur r).
Proof. intros n; induction n as [|n IH]; intros q cur r; simpl; keeps_tac. Qed.
#[local] Hint Resolve keeps_text_loop : keeps_db.

Lemma keeps_get_text_block : forall fuel s cur, keeps (get_text_block fuel s cur).
Proof. intros fuel s cur. unfold get_text_block. keeps_tac. Qed.
#[local] Hint Resolve keeps_get_text_block : keeps_db.

Lemma keeps_handle_dict : forall fuel d cur, keeps (handle_dict fuel d cur).
Proof.
  intros fuel d cur. unfold handle_dict. cbv zeta. keeps_tac.
  all: match goal with
       | H : get_dict_value _ = Ok (Some (_, _)) |- _ =>
           destruct (get_dict_value_plain _ _ _ H) as [_ [Hp|Hp]];
           [apply plain_stored_ok; exact Hp|first [discriminate Hp|injection Hp as ->; simpl in *; discriminate]]
       end.
Qed.
#[local] Hint Resolve keeps_handle_dict : keeps_db.

Lemma keeps_handle_list : forall fuel d cur, keeps (handle_list fuel d cur).
Proof.
  intros fuel d cur. unfold handle_list. cbv zeta. keeps_tac.
  apply plain_stored_ok. eapply handle_value_plain. eassumption.
Qed.
#[local] Hint Resolve keeps_handle_list : keeps_db.

Lemma keeps_handle_line : forall fuel d cur, keeps (handle_line fuel d cur).
Proof. intros fuel d cur. unfold handle_line. keeps_tac. Qed.
#[local] Hint Resolve keeps_handle_line : keeps_db.

Lemma keeps_on_line : forall fuel d, keeps (on_line fuel d).
Proof. intros fuel d. unfold on_line. cbv zeta. keeps_tac. Qed.
#[local] Hint Resolve keeps_on_line : keeps_db.

Lemma keeps_main_loop : forall fuel n c, keeps (main_loop fuel n c).
Proof. intros fuel n; induction n as [|n IH]; intros c; simpl; keeps_tac. Qed.
#[local] Hint Resolve keeps_main_loop : keeps_db.

Lemma keeps_load_m : forall fuel, keeps (load_m fuel).
Proof. intros fuel. unfold load_m. keeps_tac. Qed.

Fixpoint plain_all_dicts (P : list (value * value) -> Prop) (v : value) {struct v}
  : plain v = true -> all_dicts P v :=
  match v return plain v = true -> all_dicts P v with
  | VList vs =>
      (fix go (l : list value) : forallb plain l = true -> all_dicts P (VList l) :=
         match l return forallb plain l = true -> all_dicts P (VList l) with
         | [] => fun _ => I
         | x :: r => fun H =>
             conj (plain_all_dicts P x (proj1 (andb_prop _ _ H)))
                  (go r (proj2 (andb_prop _ _ H)))
         end) vs
  | VDict _ | VRef _ => fun H => False_ind _ (diff_false_true H)
  | _ => fun _ => I
  end.

Lemma stored_all_dicts : forall P v, stored_ok v -> all_dicts P v.
Proof. intros P [] H; try exact I; apply plain_all_dicts; exact H. Qed.

Lemma all_dicts_VList : forall P vs, Forall (all_dicts P) vs -> all_dicts P (VList vs).
Proof. intros P vs H. induction H as [|x r Hx _ IH]; simpl; auto. Qed.

Lemma all_dicts_VDict : forall P kvs,
  P kvs -> Forall (fun kv => all_dicts P (snd kv)) kvs -> all_dicts P (VDict kvs).
Proof.
  intros P kvs HP H. simpl. split; [exact HP|].
  clear HP. induction H as [|[k x] r Hx _ IH]; simpl in *; auto.
Qed.

Lemma resolve_hashable : forall n h k, hashable k = true -> resolve n h k = k.
Proof. intros [|n] h [] H; simpl; auto; discriminate. Qed.

Lemma distinct_keys_map_snd : forall (f : value -> value) kvs,
  distinct_keys kvs -> distinct_keys (map (fun kv => (fst kv, f (snd kv))) kvs).
Proof.
  intros f kvs; induction kvs as [|[k v] r IH]; simpl; intros H; [exact I|].
  destruct H as [Hf Hd]. split; [|auto].
  apply Forall_map. eapply Forall_impl; [|exact Hf]. intros [k' v']; simpl; auto.
Qed.

Section Resolve.

(** A property of a dict's entries that follows from hashable, pairwise
    distinct keys. *)
Variable P : list (value * value) -> Prop.
Hypothesis HP : forall kvs,
  Forall (fun kv => hashable (fst kv) = true) kvs -> distinct_keys kvs -> P kvs.

Lemma resolve_all_dicts : forall n h v, heap_ok h -> stored_ok v -> all_dicts P (resolve n h v).
Proof.
  induction n as [|n IH]; intros h v Hh Hv; [apply stored_all_dicts; exact Hv|].
  destruct v as [| | | | | |a]; try (apply stored_all_dicts; exact Hv).
  simpl. destruct (nth_error h a) as [c|] eqn:N; [|exact I].
  pose proof (Forall_nth_error _ _ _ _ _ Hh N) as Hc.
  destruct c as [vs|kvs]; simpl in Hc.
  - apply all_dicts_VList. apply Forall_map. eapply Forall_impl; [|exact Hc].
    intros x Hx. apply IH; auto.
  - destruct Hc as [Hf Hd].
    rewrite (map_ext_in _ (fun kv => (fst kv, resolve n h (snd kv)))).
    2:{ intros [k x] Hin. rewrite Forall_forall in Hf. destruct (Hf _ Hin) as [Hk _].
        simpl in *. rewrite resolve_hashable; auto. }
    apply all_dicts_VDict.
    + apply HP; [|apply distinct_keys_map_snd; exact Hd].
      apply Forall_map. eapply Forall_impl; [|exact Hf]. intros [k x] [Hk _]; exact Hk.
    + apply Forall_map. eapply Forall_impl; [|exact Hf].
      intros [k x] [_ Hx]. simpl. apply IH; auto.
Qed.

(** Every mapping [load] returns satisfies [P]. *)
Lemma load_all_dicts : forall fuel text t, load fuel text = Some (Ok t) -> all_dicts P t.
Proof.
  intros fuel text t E. unfold load in E.
  destruct (load_m fuel (init_state text)) as [[n root] s| |] eqn:Em; try discriminate.
  injection E as <-.
  apply (resolve_all_dicts (S (List.length (heap s))) (heap s) (VRef root)); [|exact I].
  apply (keeps_load_m fuel (init_state text) (n, root) s); [constructor|exact Em].
Qed.

End Resolve.

Lemma dict_set_existing : forall k v kvs,
  existsb (fun kv => py_eqb (fst kv) k) kvs = true ->
  map fst (dict_set k v kvs) = map fst kvs /\ dict_get k (dict_set k v kvs) = Some v.
Proof.
  intros k v kvs; induction kvs as [|[k' v'] r IH]; simpl; intros H; [discriminate|].
  destruct (py_eqb k' k) eqn:E; simpl.
  - rewrite E. split; reflexivity.
  - rewrite E. destruct (IH H) as [H1 H2]. rewrite H1. split; [reflexivity|exact H2].
Qed.

Lemma setitem_dict : forall s a kvs k v,
  nth_error (heap s) a = Some (CDict kvs) -> hashable k = true ->
  setitem a k v s = Done tt (set_heap (upd_nth a (CDict (dict_set k v kvs)) (heap s)) s).
Proof. intros s a kvs k v N Hk. unfold setitem, bind, deref. rewrite N, Hk. reflexivity. Qed.

(** ** C1 *)

(** C1 (as the code does it): assigning a key that equals (Python [==]) a
    key already in the mapping raises nothing; the entry keeps its key and
    position and takes the new value.  So a successful load never returns a
    mapping with two equal keys.  Keys compare as Python does after
    [float()] has rounded: the key 1.00000000000000000001 (the float 1.0)
    overwrites the key 1, while 9007199254740993.0 (the float 2^53) is a
    key distinct from the int 9007199254740993. *)
Theorem duplicate_key_overwrites :
  (forall s a kvs k v,
     nth_error (heap s) a = Some (CDict kvs) -> hashable k = true ->
     existsb (fun kv => py_eqb (fst kv) k) kvs = true ->
     setitem a k v s = Done tt (set_heap (upd_nth a (CDict (dict_set k v kvs)) (heap s)) s)
     /\ map fst (dict_set k v kvs) = map fst kvs
     /\ dict_get k (dict_set k v kvs) = Some v)
  /\ (forall fuel text t, load fuel text = Some (Ok t) -> all_dicts distinct_keys t)
  /\ load_text (text_of_lines ["1: a"; "1.00000000000000000001: b"])
       = Some (Ok (VDict [(VInt 1, VStr "b")]))
  /\ load_text (text_of_lines ["9007199254740993: a"; "9007199254740993.0: b"])
       = Some (Ok (VDict [(VInt 9007199254740993, VStr "a"); (VFloat (DFin 1 53), VStr "b")])).
Proof.
  split; [|split; [|split; vm_compute; reflexivity]].
  - intros s a kvs k v N Hk Hex. split; [apply setitem_dict; assumption|].
    apply dict_set_existing; exact Hex.
  - apply load_all_dicts. intros kvs _ Hd; exact Hd.
Qed.

(** C1: a repeated key is overwritten, the last value wins. *)
Lemma repeated_key_last_wins :
  load_text (text_of_lines ["a: 1"; "a: 2"]) = Some (Ok (VDict [(VStr "a", VInt 2)])).
Proof. vm_compute. reflexivity. Qed.

(** ** C10 *)

(** C10 (as the code does it): every key of every mapping a successful
    load returns is a scalar (a string, an int, a float or a bool); a
    numeric key text gives an int key, and a key text that decodes to a
    list makes the assignment raise [TypeError]. *)
Theorem keys_are_hashable_scalars :
  (forall fuel text t, load fuel text = Some (Ok t) ->
     all_dicts (fun kvs => Forall (fun kv => hashable (fst kv) = true) kvs) t)
  /\ load_text (text_of_lines ["587: foo"]) = Some (Ok (VDict [(VInt 587, VStr "foo")]))
  /\ load_text (text_of_lines ["[1,2]: x"]) = Some (Err TypeError).
Proof.
  split; [|split; vm_compute; reflexivity].
  apply load_all_dicts. intros kvs Hf _; exact Hf.
Qed.

(** C10: the key of "587: foo" is the int 587. *)
Lemma numeric_key_is_int :
  load_text (text_of_lines ["587: foo"]) = Some (Ok (VDict [(VInt 587, VStr "foo")])).
Proof. vm_compute. reflexivity. Qed.

Lemma duplicate_key_overwrites_witness :
  setitem 0%nat (VStr "a") (VInt 2) (mk_state [CDict [(VStr "a", VInt 1)]] [] (mk_file "" 0%nat))
    = Done tt (mk_state [CDict [(VStr "a", VInt 2)]] [] (mk_file "" 0%nat))
  /\ all_dicts distinct_keys (VDict [(VStr "a", VInt 2)]).
Proof.
  split.
  - apply (proj1 duplicate_key_overwrites
             (mk_state [CDict [(VStr "a", VInt 1)]] [] (mk_file "" 0%nat)) 0%nat [(VStr "a", VInt 1)]
             (VStr "a") (VInt 2)); reflexivity.
  - apply (proj1 (proj2 duplicate_key_overwrites) 10%nat (text_of_lines ["a: 1"; "a: 2"])).
    vm_compute. reflexivity.
Defined.

Lemma keys_are_hashable_scalars_witness :
  all_dicts (fun kvs => Forall (fun kv => hashable (fst kv) = true) kvs)
    (VDict [(VInt 587, VStr "foo")]).
Proof.
  apply (proj1 keys_are_hashable_scalars 10%nat (text_of_lines ["587: foo"])).
  vm_compute. reflexivity.
Defined.

(* ================================================================== *)
(** * Further properties of the loader *)

(** ** Lengths of the string helpers *)

Lemma rev_str_length : forall s, String.length (Py.rev_str s) = String.length s.
Proof.
  induction s as [|c r IH]; simpl; [reflexivity|].
  rewrite str_length_app, IH. simpl. lia.
Qed.

Lemma strip_by_length : forall p s, (String.length (Py.strip_by p s) <= String.length s)%nat.
Proof.
  intros p s. unfold Py.strip_by, Py.rstrip_by.
  rewrite rev_str_length. pose proof (lstrip_by_length p s).
  pose proof (lstrip_by_length p (Py.rev_str (Py.lstrip_by p s))).
  rewrite rev_str_length in H0. lia.
Qed.

Lemma str_drop_length : forall n s, String.length (Py.str_drop n s) = (String.length s - n)%nat.
Proof.
  induction n as [|n IH]; intros [|c r]; simpl; try reflexivity. apply IH.
Qed.

Lemma inner_length : forall g, (String.length (Py.inner g) <= String.length g - 2)%nat.
Proof.
  intros [|c r]; cbn [Py.inner String.length]; [lia|].
  rewrite rev_str_length, str_drop_length, rev_str_length. lia.
Qed.

Lemma split_fuel_length : forall f sep s p, In p (Py.split_fuel f sep s) ->
  (String.length p <= String.length s)%nat.
Proof.
  induction f as [|f IH]; intros sep s p Hp; simpl in Hp.
  - destruct Hp as [<-|[]]. lia.
  - destruct s as [|c r].
    + destruct Hp as [<-|[]]. simpl; lia.
    + destruct (String.prefix sep (String c r)).
      * destruct Hp as [<-|Hp]; [simpl; lia|].
        apply IH in Hp. rewrite str_drop_length in Hp. cbn [String.length] in *. lia.
      * destruct (Py.split_fuel f sep r) as [|x xs] eqn:E.
        -- destruct Hp as [<-|[]]. simpl; lia.
        -- destruct Hp as [<-|Hp].
           ++ simpl. assert (In x (Py.split_fuel f sep r)) by (rewrite E; left; reflexivity).
              apply IH in H. lia.
           ++ assert (In p (Py.split_fuel f sep r)) by (rewrite E; right; exact Hp).
              apply IH in H. simpl; lia.
Qed.

Lemma map_res_err : forall A B (f : A -> res B) l e,
  map_res f l = Err e -> exists x, In x l /\ f x = Err e.
Proof.
  intros A B f l e; induction l as [|x l IH]; simpl; intros H; [discriminate|].
  destruct (f x) as [y|e'] eqn:Ex.
  - destruct (map_res f l) eqn:El; [discriminate|].
    injection H as ->. destruct (IH eq_refl) as [z [Hz Hfz]]. eauto.
  - injection H as ->. eauto.
Qed.

Lemma map_res_ext : forall A B (f g : A -> res B) l,
  (forall x, In x l -> f x = g x) -> map_res f l = map_res g l.
Proof.
  intros A B f g l; induction l as [|x l IH]; simpl; intros H; [reflexivity|].
  rewrite (H x (or_introl eq_refl)), IH by (intros; apply H; right; assumption).
  reflexivity.
Qed.

(** Every piece of the flow-sequence split is shorter than the text by two. *)
Lemma flow_piece_length : forall s p,
  In p (Py.split "," (Py.inner (Py.strip s))) ->
  (String.length p <= String.length s - 2)%nat.
Proof.
  intros s p Hp. apply split_fuel_length in Hp.
  pose proof (inner_length (Py.strip s)). pose proof (strip_by_length Py.str_isspace s).
  unfold Py.strip in *. lia.
Qed.

Lemma flow_guard_nonempty : forall s,
  (Py.startswith "[" (Py.strip s) && Py.endswith "]" (Py.strip s)) = true ->
  (1 <= String.length s)%nat.
Proof.
  intros s H. pose proof (strip_by_length Py.str_isspace s). unfold Py.strip in *.
  destruct (Py.strip_by Py.str_isspace s) as [|c r]; [discriminate|]. simpl in *. lia.
Qed.

Ltac split_handle_value H :=
  cbn [handle_value_fuel] in H;
  repeat match type of H with
         | context [if ?b then _ else _] => destruct b eqn:?
         end;
  unfold py_float, py_int in H;
  repeat match type of H with
         | context [if ?b then _ else _] => destruct b eqn:?
         end.

(** With enough fuel, [handle_value_fuel] fails only through [float()] or
    [int()]. *)
Lemma handle_value_fuel_err : forall n s e, (String.length s <= n)%nat ->
  handle_value_fuel n s = Err e -> e = FloatValueError \/ e = IntValueError.
Proof.
  induction n as [|n IH]; intros s e Hn H; split_handle_value H;
    try discriminate; try (injection H as <-; auto; fail).
  all: first
    [ match goal with Hg : (_ && _) = true |- _ => apply flow_guard_nonempty in Hg end; lia
    | destruct (map_res _ _) as [ys|e'] eqn:Em; [discriminate|]; injection H as <-;
      destruct (map_res_err _ _ _ _ _ Em) as [p [Hp Hpe]];
      apply (IH p); [|exact Hpe]; apply flow_piece_length in Hp; lia ].
Qed.

(** With enough fuel, the fuel does not matter. *)
Lemma handle_value_fuel_enough : forall n m s,
  (String.length s <= n)%nat -> (String.length s <= m)%nat ->
  handle_value_fuel n s = handle_value_fuel m s.
Proof.
  induction n as [|n IH]; intros m s Hn Hm.
  - destruct s; [|simpl in Hn; lia]. destruct m; reflexivity.
  - destruct m as [|m].
    + destruct s; [reflexivity|simpl in Hm; lia].
    + cbn [handle_value_fuel].
      destruct (Py.isnumeric _); [reflexivity|].
      destruct (String.eqb _ "true"); [reflexivity|].
      destruct (String.eqb _ "false"); [reflexivity|].
      destruct (_ && _); [|reflexivity].
      destruct (1 <? _)%nat; [|reflexivity].
      rewrite (map_res_ext _ _ (handle_value_fuel n) (handle_value_fuel m)); [reflexivity|].
      intros p Hp. apply flow_piece_length in Hp. apply IH; lia.
Qed.

Lemma rev_str_involutive : forall s, Py.rev_str (Py.rev_str s) = s.
Proof.
  induction s as [|c r IH]; simpl; [reflexivity|].
  rewrite rev_str_app, IH. reflexivity.
Qed.

(** A string that neither starts nor ends with a stripped character is
    left alone by [strip_by]. *)
Lemma strip_by_id : forall p c x d,
  p c = false -> p d = false ->
  Py.strip_by p (String c (x ++ String d EmptyString)) = String c (x ++ String d EmptyString).
Proof.
  intros p c x d Hc Hd. unfold Py.strip_by, Py.rstrip_by. cbn [Py.lstrip_by]. rewrite Hc.
  change (String c (x ++ String d EmptyString)) with ((String c x) ++ String d EmptyString).
  rewrite rev_str_app. cbn [Py.rev_str String.append Py.lstrip_by]. rewrite Hd.
  change (String d (Py.rev_str x ++ String c EmptyString))
    with (String d EmptyString ++ Py.rev_str (String c x)).
  rewrite rev_str_app, rev_str_involutive. reflexivity.
Qed.

Lemma prefix_char : forall c r, String.prefix (String c EmptyString) (String c r) = true.
Proof.
  intros c r. cbn [String.prefix]. destruct (Ascii.ascii_dec c c) as [_|n]; [|congruence].
  destruct r; reflexivity.
Qed.

(** ** Extra: [handle_value] fails only in [float()] and [int()] *)

(** On ASCII text, [handle_value] returns a scalar or a list of such
    values, never a mapping; the only exceptions it raises are the
    [ValueError] of [float()] on a digit string with several dots and the
    [ValueError] of [int()] on a run of more than 4300 digits (the
    recursion into the elements of a flow sequence always has enough
    depth). *)
Theorem handle_value_outcome : forall s, Py.ascii_text s = true ->
  match handle_value s with
  | Ok v => plain v = true
  | Err e => e = FloatValueError \/ e = IntValueError
  end.
Proof.
  intros s _. destruct (handle_value s) as [v|e] eqn:E.
  - eapply handle_value_plain; exact E.
  - exact (handle_value_fuel_err (String.length s) s e (le_n _) E).
Qed.

Lemma handle_value_outcome_witness :
  match handle_value "1.2.3" with
  | Ok v => plain v = true
  | Err e => e = FloatValueError \/ e = IntValueError
  end.
Proof. apply (handle_value_outcome "1.2.3"). reflexivity. Defined.

(** ** Extra: flow sequences *)

(** [handle_value] on a bracketed text "[x]": when [x] splits on ',' into
    two or more pieces, each piece is decoded with [handle_value] (the
    first failure is raised); otherwise, whatever [x] is, the result is the
    empty list. *)
Theorem handle_value_flow_sequence : forall x,
  handle_value ("[" ++ x ++ "]") =
    if (1 <? List.length (Py.split "," x))%nat then
      match map_res handle_value (Py.split "," x) with
      | Ok vs => Ok (VList vs)
      | Err e => Err e
      end
    else Ok (VList []).
Proof.
  intros x. unfold handle_value.
  replace (String.length ("[" ++ x ++ "]")) with (S (S (String.length x)))
    by (cbn [String.append String.length]; rewrite str_length_app; simpl; lia).
  cbn [handle_value_fuel].
  assert (Hs : Py.strip ("[" ++ x ++ "]") = "[" ++ x ++ "]")
    by (apply strip_by_id; reflexivity).
  rewrite Hs.
  replace (Py.isnumeric (Py.replace "." "" ("[" ++ x ++ "]"))) with false
    by (unfold Py.replace; cbn [String.append String.length Py.replace_fuel]; reflexivity).
  replace (String.eqb ("[" ++ x ++ "]") "true") with false by reflexivity.
  replace (String.eqb ("[" ++ x ++ "]") "false") with false by reflexivity.
  replace (Py.startswith "[" ("[" ++ x ++ "]")) with true by (symmetry; apply prefix_char).
  replace (Py.endswith "]" ("[" ++ x ++ "]")) with true.
  2:{ unfold Py.endswith. cbn [String.append]. change (String "[" (x ++ "]")) with ("[" ++ x ++ "]").
      rewrite !rev_str_app. symmetry. apply prefix_char. }
  replace (Py.inner ("[" ++ x ++ "]")) with x.
  2:{ cbn [String.append Py.inner]. rewrite rev_str_app. cbn [Py.rev_str String.append Py.str_drop].
      rewrite rev_str_involutive. reflexivity. }
  cbn [andb]. destruct (1 <? _)%nat; [|reflexivity].
  rewrite (map_res_ext _ _ (handle_value_fuel (S (String.length x))) handle_value); [reflexivity|].
  intros p Hp. unfold handle_value. apply split_fuel_length in Hp.
  apply handle_value_fuel_enough; lia.
Qed.

(** ** Extra: the indent of a line *)

(** [n] spaces. *)
Fixpoint spaces (n : nat) : string :=
  match n with
  | O => EmptyString
  | S n' => String " " (spaces n')
  end.

Lemma strip_indent_spaces : forall n t, strip_indent (spaces n ++ t) = strip_indent t.
Proof. induction n as [|n IH]; intros t; [reflexivity|]. exact (IH t). Qed.

Lemma strip_indent_nonspace : forall c r, c <> " "%char -> strip_indent (String c r) = String c r.
Proof.
  intros c r Hc. unfold strip_indent, Py.lstrip_chars. cbn [Py.lstrip_by Py.in_chars].
  destruct (Ascii.eqb c " ") eqn:E; [apply Ascii.eqb_eq in E; contradiction|reflexivity].
Qed.

Lemma spaces_length : forall n, String.length (spaces n) = n.
Proof. induction n; simpl; auto. Qed.

Lemma prefix_dash_space : forall r, String.prefix "- " (String " " r) = false.
Proof.
  intros r. cbn [String.prefix].
  destruct (Ascii.ascii_dec "-" " ") as [E|_]; [discriminate E|reflexivity].
Qed.

Lemma prefix_dash : forall r, String.prefix "- " ("- " ++ r) = true.
Proof.
  intros r. cbn [String.append String.prefix].
  destruct (Ascii.ascii_dec "-" "-") as [_|n]; [|congruence].
  destruct (Ascii.ascii_dec " " " ") as [_|n]; [|congruence]. destruct r; reflexivity.
Qed.

Lemma split_dash_head : forall f n r, (n < f)%nat ->
  hd EmptyString (Py.split_fuel f "- " (spaces n ++ "- " ++ r)) = spaces n.
Proof.
  intros f n r; revert f; induction n as [|n IH]; intros [|f] Hf; try lia.
  - cbn [spaces String.append Py.split_fuel].
    change (String "-" (String " " r)) with ("- " ++ r). rewrite prefix_dash. reflexivity.
  - change (spaces (S n) ++ "- " ++ r) with (String " " (spaces n ++ ("- " ++ r))).
    cbn [Py.split_fuel]. rewrite prefix_dash_space.
    specialize (IH f ltac:(lia)).
    destruct (Py.split_fuel f "- " (spaces n ++ ("- " ++ r))) as [|x xs];
      cbn [hd spaces] in *; rewrite <- IH; reflexivity.
Qed.

(** [line_indent], the indent [on_line] and [handle_dict] compute: for a
    list item "- ..." after [n] spaces it is [n + 2], the column after the
    marker; for any other line it is its count of leading spaces. *)
Theorem line_indent_spec :
  (forall n r, line_indent (spaces n ++ "- " ++ r) = Z.of_nat n + 2)
  /\ (forall n c r, Ascii.eqb c " " = false -> Py.startswith "- " (String c r) = false ->
        line_indent (spaces n ++ String c r) = Z.of_nat n).
Proof.
  split.
  - intros n r. unfold line_indent, get_list_indent.
    rewrite strip_indent_spaces.
    replace (strip_indent ("- " ++ r)) with ("- " ++ r)
      by (symmetry; apply strip_indent_nonspace; discriminate).
    unfold Py.startswith. rewrite prefix_dash.
    unfold Py.split. rewrite split_dash_head
      by (rewrite str_length_app; cbn [String.append String.length]; rewrite spaces_length; lia).
    rewrite spaces_length. unfold int_or.
    destruct (Z.of_nat n + 2 =? 0) eqn:E; [apply Z.eqb_eq in E; lia|reflexivity].
  - intros n c r Hc Hl. apply Ascii.eqb_neq in Hc.
    unfold line_indent, get_list_indent, get_indent_level.
    rewrite !strip_indent_spaces, !strip_indent_nonspace by exact Hc.
    rewrite Hl. unfold int_or. rewrite str_length_app, spaces_length. lia.
Qed.

(** ** Extra: splitting a mapping line *)

Lemma take_app : forall a b, take (String.length a) (a ++ b) = a.
Proof.
  unfold take. induction a as [|c a IH]; intros b; simpl; [destruct b; reflexivity|].
  rewrite IH. reflexivity.
Qed.

Lemma str_drop_app : forall a b, Py.str_drop (String.length a) (a ++ b) = b.
Proof. induction a as [|c a IH]; intros b; simpl; auto. Qed.

Lemma dict_scan_no_colon : forall g i t, Py.in_chars t ":"%char = false -> dict_scan g i t = Ok None.
Proof.
  intros g i t; revert i; induction t as [|c r IH]; intros i H; [reflexivity|].
  cbn [Py.in_chars] in H. apply orb_false_iff in H as [Hc Hr]. rewrite Ascii.eqb_sym in Hc.
  cbn [dict_scan]. rewrite Hc. auto.
Qed.

(** The scan reaches the first ':' of the text with [index] its position. *)
Lemma dict_scan_to_colon : forall k pre rest,
  Py.in_chars k ":"%char = false ->
  dict_scan (pre ++ k ++ ":" ++ rest) (String.length pre) (k ++ ":" ++ rest) =
    let g := pre ++ k ++ ":" ++ rest in
    let index := (String.length pre + String.length k)%nat in
    if (String.length g =? S index)%nat then
      match handle_value (strip_list_indent (take index g)) with
      | Ok k => Ok (Some (k, VDict []))
      | Err e => Err e
      end
    else if Py.startswith " " rest then
      match handle_value (strip_list_indent (take index g)) with
      | Err e => Err e
      | Ok k =>
          match handle_value (Py.str_drop (S index) g) with
          | Ok v => Ok (Some (k, v))
          | Err e => Err e
          end
      end
    else dict_scan g (S index) rest.
Proof.
  induction k as [|c k IH]; intros pre rest Hk.
  - cbn [String.append dict_scan String.length]. rewrite Nat.add_0_r. reflexivity.
  - cbn [Py.in_chars] in Hk. apply orb_false_iff in Hk as [Hc Hk]. rewrite Ascii.eqb_sym in Hc.
    cbn [String.append dict_scan]. rewrite Hc.
    specialize (IH (pre ++ String c EmptyString) rest Hk).
    rewrite <- !str_app_assoc in IH. cbn [String.append] in IH.
    rewrite str_length_app in IH. cbn [String.length] in IH.
    replace (S (String.length pre)) with (String.length pre + 1)%nat by lia.
    rewrite IH. cbn zeta. cbn [String.length].
    replace (String.length pre + 1 + String.length k)%nat
      with (String.length pre + S (String.length k))%nat by lia.
    reflexivity.
Qed.

(** [handle_value] only looks at the stripped text. *)
Lemma handle_value_fuel_strip : forall n a b, Py.strip a = Py.strip b ->
  handle_value_fuel n a = handle_value_fuel n b.
Proof. intros [|n] a b H; cbn [handle_value_fuel]; rewrite H; reflexivity. Qed.

Lemma strip_space_app : forall v, Py.strip (" " ++ v) = Py.strip v.
Proof. intros v. reflexivity. Qed.

(** [get_dict_value] on a line whose stripped text (after the indent) is
    [g]: with no ':' in [g] it returns [None]; when the first ':' ends [g]
    the key is the text before it (leading '-' and ' ' removed) and the
    value is the open marker [{}]; when the first ':' is followed by a space
    the value is the rest of the line, decoded. *)
Theorem get_dict_value_spec :
  (forall line, Py.in_chars (Py.strip (strip_indent line)) ":"%char = false ->
     get_dict_value line = Ok None)
  /\ (forall line k, Py.strip (strip_indent line) = k ++ ":" -> Py.in_chars k ":"%char = false ->
     get_dict_value line =
       match handle_value (strip_list_indent k) with
       | Ok key => Ok (Some (key, VDict []))
       | Err e => Err e
       end)
  /\ (forall line k v, Py.strip (strip_indent line) = k ++ ": " ++ v -> Py.in_chars k ":"%char = false ->
     get_dict_value line =
       match handle_value (strip_list_indent k) with
       | Ok key => match handle_value v with Ok x => Ok (Some (key, x)) | Err e => Err e end
       | Err e => Err e
       end).
Proof.
  split; [|split].
  - intros line H. unfold get_dict_value. cbv zeta. apply dict_scan_no_colon. exact H.
  - intros line k Hg Hk. unfold get_dict_value. cbv zeta. rewrite Hg.
    pose proof (dict_scan_to_colon k "" "" Hk) as E. cbn [String.append String.length] in E. rewrite ?Nat.add_0_l in E.
    rewrite E. cbn zeta.
    replace (String.length (k ++ ":") =? S (String.length k))%nat with true
      by (rewrite str_length_app; simpl; symmetry; apply Nat.eqb_eq; lia).
    rewrite take_app. reflexivity.
  - intros line k v Hg Hk. unfold get_dict_value. cbv zeta. rewrite Hg.
    pose proof (dict_scan_to_colon k "" (" " ++ v) Hk) as E.
    cbn [String.append String.length] in E. rewrite ?Nat.add_0_l in E.
    change (": " ++ v) with (String ":" (String " " v)). rewrite E. cbn zeta.
    replace (String.length (k ++ String ":" (String " " v)) =? S (String.length k))%nat with false
      by (rewrite str_length_app; simpl; symmetry; apply Nat.eqb_neq; lia).
    replace (Py.startswith " " (String " " v)) with true by (symmetry; apply prefix_char).
    rewrite take_app.
    replace (Py.str_drop (S (String.length k)) (k ++ String ":" (String " " v))) with (" " ++ v).
    2:{ replace (S (String.length k)) with (String.length (k ++ ":")) by (rewrite str_length_app; simpl; lia).
        change (String ":" (String " " v)) with (":" ++ (" " ++ v)).
        rewrite str_app_assoc. rewrite str_drop_app. reflexivity. }
    replace (handle_value (" " ++ v)) with (handle_value v); [reflexivity|].
    unfold handle_value. rewrite (handle_value_fuel_strip _ (" " ++ v) v (strip_space_app v)).
    apply handle_value_fuel_enough; simpl; lia.
Qed.

(** ** Extra: the closing quote of a one-line scalar *)

Lemma in_chars_app : forall a b c, Py.in_chars (a ++ b) c = Py.in_chars a c || Py.in_chars b c.
Proof.
  induction a as [|d a IH]; intros b c; simpl; [reflexivity|]. rewrite IH. apply orb_assoc.
Qed.

Lemma prefix_in_chars : forall old s c,
  String.prefix old s = true -> Py.in_chars old c = true -> Py.in_chars s c = true.
Proof.
  induction old as [|o old IH]; intros s c Hp Hc; [discriminate|].
  destruct s as [|d s]; cbn [String.prefix] in Hp; [discriminate|].
  destruct (Ascii.ascii_dec o d) as [<-|]; [|discriminate].
  cbn [Py.in_chars] in *. apply orb_true_iff in Hc as [Hc|Hc].
  - rewrite Hc. reflexivity.
  - rewrite (IH s c Hp Hc). apply orb_true_r.
Qed.

Lemma prefix_head_false : forall o old c r, o <> c -> String.prefix (String o old) (String c r) = false.
Proof.
  intros o old c r H. cbn [String.prefix].
  destruct (Ascii.ascii_dec o c); [contradiction|reflexivity].
Qed.

(** [replace] does nothing when [old] holds a character the text lacks. *)
Lemma replace_fuel_absent : forall f old new s c,
  Py.in_chars s c = false -> Py.in_chars old c = true -> Py.replace_fuel f old new s = s.
Proof.
  induction f as [|f IH]; intros old new s c Hs Ho; [reflexivity|].
  destruct s as [|d r]; [reflexivity|]. cbn [Py.replace_fuel].
  destruct (String.prefix old (String d r)) eqn:E.
  - rewrite (prefix_in_chars _ _ _ E Ho) in Hs. discriminate.
  - cbn [Py.in_chars] in Hs. apply orb_false_iff in Hs as [_ Hr].
    rewrite (IH old new r c Hr Ho). reflexivity.
Qed.

(** [replace] copies a prefix lacking the first character of [old]. *)
Lemma replace_fuel_skip : forall a f o old new t,
  Py.in_chars a o = false ->
  Py.replace_fuel (String.length a + f) (String o old) new (a ++ t) =
    a ++ Py.replace_fuel f (String o old) new t.
Proof.
  induction a as [|c a IH]; intros f o old new t Ha; [reflexivity|].
  cbn [Py.in_chars] in Ha. apply orb_false_iff in Ha as [Hc Ha].
  cbn [String.length Nat.add String.append Py.replace_fuel].
  rewrite prefix_head_false by (intros ->; rewrite Ascii.eqb_refl in Hc; discriminate).
  rewrite IH by exact Ha. reflexivity.
Qed.

Lemma split_fuel_nonempty : forall f sep s, Py.split_fuel f sep s <> [].
Proof.
  intros [|f] sep s; simpl; [discriminate|].
  destruct s; [discriminate|]. destruct (String.prefix sep _); [discriminate|].
  destruct (Py.split_fuel f sep s); discriminate.
Qed.

Lemma split_fuel_absent : forall f c s, (String.length s <= f)%nat ->
  Py.in_chars s c = false -> Py.split_fuel f (String c EmptyString) s = [s].
Proof.
  induction f as [|f IH]; intros c s Hf Hs.
  - destruct s; [reflexivity|simpl in Hf; lia].
  - destruct s as [|d r]; [reflexivity|]. cbn [Py.split_fuel].
    cbn [Py.in_chars] in Hs. apply orb_false_iff in Hs as [Hc Hr].
    rewrite prefix_head_false by (intros ->; rewrite Ascii.eqb_refl in Hc; discriminate).
    rewrite IH; [reflexivity| simpl in Hf; lia | exact Hr].
Qed.

Lemma split_fuel_first : forall a f c t, Py.in_chars a c = false ->
  exists rest, rest <> [] /\
    Py.split_fuel (String.length a + S f) (String c EmptyString) (a ++ String c t) = a :: rest.
Proof.
  induction a as [|d a IH]; intros f c t Ha.
  - cbn [String.length Nat.add String.append Py.split_fuel].
    rewrite prefix_char. eexists; split; [apply split_fuel_nonempty|reflexivity].
  - cbn [Py.in_chars] in Ha. apply orb_false_iff in Ha as [Hd Ha].
    destruct (IH f c t Ha) as [rest [Hr E]].
    cbn [String.length Nat.add String.append Py.split_fuel].
    rewrite prefix_head_false by (intros ->; rewrite Ascii.eqb_refl in Hd; discriminate).
    rewrite E. exists rest. split; [exact Hr|reflexivity].
Qed.

(** After replacing "\q" by "~~", a text that did not start with [q] still
    does not. *)
Lemma replace_escape_head : forall f q b,
  Ascii.eqb q "~" = false ->
  String.prefix (String q EmptyString) b = false ->
  String.prefix (String q EmptyString) (Py.replace_fuel f ("\" ++ String q EmptyString) "~~" b) = false.
Proof.
  intros [|f] q b Hq Hb; [exact Hb|]. destruct b as [|c r]; [reflexivity|].
  cbn [Py.replace_fuel String.append].
  destruct (String.prefix (String "\" (String q EmptyString)) (String c r)).
  - apply prefix_head_false. intros ->. discriminate Hq.
  - cbn [String.prefix] in *. destruct (Ascii.ascii_dec q c); [|reflexivity].
    destruct r; discriminate Hb.
Qed.

Lemma prefix_qq : forall q b,
  String.prefix (String q (String q EmptyString)) (String q b) = String.prefix (String q EmptyString) b.
Proof.
  intros q b. cbn [String.prefix]. destruct (Ascii.ascii_dec q q); [reflexivity|congruence].
Qed.

Lemma find_stop_string_absent : forall q t,
  Py.in_chars t q = false -> find_stop_string t (String q EmptyString) = None.
Proof.
  intros q t Ht. unfold find_stop_string, Py.replace, Py.split. cbv zeta.
  rewrite (replace_fuel_absent _ _ _ t q Ht)
    by (cbn [String.append Py.in_chars]; rewrite Ascii.eqb_refl; apply orb_true_r).
  rewrite (replace_fuel_absent _ _ _ t q Ht)
    by (cbn [String.append Py.in_chars]; rewrite Ascii.eqb_refl; reflexivity).
  rewrite split_fuel_absent by (auto || lia). reflexivity.
Qed.

Lemma find_stop_string_first : forall q a b,
  Ascii.eqb q "\" = false -> Ascii.eqb q "~" = false ->
  Py.in_chars a q = false -> Py.in_chars a "\" = false ->
  String.prefix (String q EmptyString) b = false ->
  find_stop_string (a ++ String q b) (String q EmptyString) = Some (String.length a).
Proof.
  intros q a b Hbs Htl Ha Hab Hb. unfold find_stop_string, Py.replace, Py.split. cbv zeta.
  rewrite str_length_app. cbn [String.length String.append].
  rewrite (replace_fuel_skip a (S (String.length b)) "\" (String q EmptyString)) by exact Hab.
  cbn [Py.replace_fuel].
  rewrite prefix_head_false by (intros E; subst q; discriminate Hbs).
  set (b1 := Py.replace_fuel (String.length b) (String "\" (String q EmptyString)) "~~" b).
  assert (Hb1 : String.prefix (String q EmptyString) b1 = false)
    by (apply (replace_escape_head _ q b Htl Hb)).
  rewrite str_length_app. cbn [String.length].
  rewrite (replace_fuel_skip a (S (String.length b1)) q (String q EmptyString)) by exact Ha.
  cbn [Py.replace_fuel]. rewrite prefix_qq, Hb1.
  set (b2 := Py.replace_fuel (String.length b1) (String q (String q EmptyString)) "~~" b1).
  rewrite str_length_app. cbn [String.length].
  destruct (split_fuel_first a (String.length b2) q b2 Ha) as [rest [Hr E]].
  rewrite E. destruct rest as [|x rest]; [contradiction|reflexivity].
Qed.

(** [find_stop_string t q] for a one-character stop string [q] other than
    '\' and '~': [None] when [t] has no [q]; the position of the first [q]
    when no '\' comes before it and no second [q] right after it. *)
Theorem find_stop_string_spec : forall q,
  Ascii.eqb q "\" = false -> Ascii.eqb q "~" = false ->
  (forall t, Py.in_chars t q = false -> find_stop_string t (String q EmptyString) = None)
  /\ (forall a b, Py.in_chars a q = false -> Py.in_chars a "\" = false ->
        String.prefix (String q EmptyString) b = false ->
        find_stop_string (a ++ String q b) (String q EmptyString) = Some (String.length a)).
Proof.
  intros q Hbs Htl. split.
  - apply find_stop_string_absent.
  - intros a b. apply find_stop_string_first; assumption.
Qed.

Lemma in_chars_rev : forall x c, Py.in_chars (Py.rev_str x) c = Py.in_chars x c.
Proof.
  induction x as [|d x IH]; intros c; simpl; [reflexivity|].
  rewrite in_chars_app, IH. simpl. rewrite orb_false_r. apply orb_comm.
Qed.

Lemma lstrip_quote_noop : forall (p : ascii -> bool) q s,
  (forall c, p c = true -> c = q) -> Py.in_chars s q = false -> Py.lstrip_by p s = s.
Proof.
  intros p q [|d r] Hp H; [reflexivity|]. cbn [Py.lstrip_by].
  destruct (p d) eqn:E; [|reflexivity].
  apply Hp in E. subst d. cbn [Py.in_chars] in H. rewrite Ascii.eqb_refl in H. discriminate H.
Qed.

(** [starting_string.strip(q)] on [q + x + q] where [x] has no [q]. *)
Lemma strip_quotes : forall q x, Py.in_chars x q = false ->
  Py.strip_chars (String q EmptyString) (String q (x ++ String q EmptyString)) = x.
Proof.
  intros q x Hx. unfold Py.strip_chars, Py.strip_by, Py.rstrip_by.
  remember (Py.in_chars (String q EmptyString)) as p eqn:Ep.
  assert (Hp : forall c, p c = Ascii.eqb c q) by (intros c; subst p; simpl; apply orb_false_r).
  assert (Hpq : forall c, p c = true -> c = q) by (intros c; rewrite Hp; apply Ascii.eqb_eq).
  cbn [Py.lstrip_by]. rewrite Hp, Ascii.eqb_refl.
  destruct x as [|c x'].
  - cbn [String.append Py.lstrip_by]. rewrite Hp, Ascii.eqb_refl. reflexivity.
  - pose proof Hx as Hc. cbn [Py.in_chars] in Hc. apply orb_false_iff in Hc as [Hc _].
    cbn [String.append Py.lstrip_by]. rewrite Hp, Ascii.eqb_sym, Hc.
    change (String c (x' ++ String q EmptyString)) with (String c x' ++ String q EmptyString).
    rewrite rev_str_app. cbn [Py.rev_str String.append Py.lstrip_by].
    rewrite Hp, Ascii.eqb_refl.
    change (Py.rev_str x' ++ String c EmptyString) with (Py.rev_str (String c x')).
    rewrite (lstrip_quote_noop p q) by (auto; rewrite in_chars_rev; exact Hx).
    apply rev_str_involutive.
Qed.

Lemma quote_char_facts : forall q, Py.in_chars (Py.dquote ++ "'") q = true ->
  Ascii.eqb q "\" = false /\ Ascii.eqb q "~" = false.
Proof.
  intros q Hq. cbn [Py.dquote String.append Py.in_chars] in Hq.
  destruct (Ascii.eqb q (Py.chr 34)) eqn:E1.
  - apply Ascii.eqb_eq in E1. subst q. split; reflexivity.
  - destruct (Ascii.eqb q "'") eqn:E2.
    + apply Ascii.eqb_eq in E2. subst q. split; reflexivity.
    + discriminate Hq.
Qed.

(** ** Extra: a quoted scalar closed on its own line *)

(** [get_text_block] on a value that opens with a quote [q] (a double quote or
    an apostrophe) and whose body [x] has neither [q] nor a backslash: when the line
    ends with the closing [q], the result is [x] without the quotes and the
    state (file position, data) is unchanged; when the closing [q] is
    followed by a character other than [q] (a doubled [qq] counts as an
    escape instead), it raises the "characters outside" [ValueError]. *)
Theorem get_text_block_one_line : forall fuel q x cur s,
  Py.in_chars (Py.dquote ++ "'") q = true ->
  Py.in_chars x q = false -> Py.in_chars x "\" = false ->
  get_text_block fuel (String q (x ++ String q EmptyString)) cur s = Done x s
  /\ (forall d y, Ascii.eqb d q = false ->
        get_text_block fuel (String q (x ++ String q (String d y))) cur s = Raise OutsideStop).
Proof.
  intros fuel q x cur s Hq Hx Hbs.
  destruct (quote_char_facts q Hq) as [Hq1 Hq2].
  split.
  - unfold get_text_block. rewrite Hq. cbn [Py.str_drop].
    rewrite (find_stop_string_first q x EmptyString Hq1 Hq2 Hx Hbs) by reflexivity.
    cbn [String.length]. rewrite str_length_app. cbn [String.length].
    replace (Z.of_nat (String.length x) =? Z.of_nat (S (String.length x + 1)) - 2) with true
      by (symmetry; apply Z.eqb_eq; lia).
    cbn [negb]. unfold ret. rewrite strip_quotes by exact Hx. reflexivity.
  - intros d y Hd. unfold get_text_block. rewrite Hq. cbn [Py.str_drop].
    rewrite (find_stop_string_first q x (String d y) Hq1 Hq2 Hx Hbs).
    2:{ cbn [String.prefix]. destruct (Ascii.ascii_dec q d) as [E|E]; [|reflexivity].
        subst d. rewrite Ascii.eqb_refl in Hd. discriminate Hd. }
    cbn [String.length]. rewrite str_length_app. cbn [String.length].
    replace (Z.of_nat (String.length x) =? Z.of_nat (S (String.length x + S (S (String.length y)))) - 2)
      with false by (symmetry; apply Z.eqb_neq; lia).
    reflexivity.
Qed.

(** ** Extra: a folded (unquoted) block *)

(** A continuation line of a folded block: not blank and indented deeper
    than the key. *)
Definition folded_line (cur : Z) (l : string) : bool :=
  negb (String.eqb (Py.strip l) "") && (cur <? get_indent_level l).

(** The line that ends a folded block, if any: not blank and indented no
    deeper than the key. *)
Definition folded_stop (cur : Z) (rest : list string) : bool :=
  match rest with
  | [] => true
  | l :: _ => negb (String.eqb (Py.strip l) "") && (get_indent_level l <=? cur)
  end.

(** The continuation lines, each stripped and preceded by a space. *)
Definition folded_tail (ls : list string) : string :=
  fold_right (fun l acc => " " ++ Py.strip l ++ acc) EmptyString ls.

Lemma strip_nonblank_nonempty : forall l, String.eqb (Py.strip l) "" = false -> String.eqb l "" = false.
Proof. intros [|c r] H; [discriminate H|reflexivity]. Qed.

Lemma lines_after_cat : forall ls rest x,
  lines_of x = (ls ++ rest)%list -> lines_of (Py.str_drop (String.length (cat_lines ls)) x) = rest.
Proof.
  induction ls as [|l ls IH]; intros rest x Hx; [exact Hx|].
  unfold cat_lines. cbn [fold_right]. fold (cat_lines ls).
  rewrite str_length_app, str_drop_add.
  assert (El : l = readline_of x) by (rewrite readline_of_lines, Hx; reflexivity).
  apply IH. rewrite El, lines_after_readline, Hx. reflexivity.
Qed.

Lemma text_loop_folded : forall ls rest n cur r s,
  lines_of (remaining s) = (ls ++ rest)%list ->
  forallb (folded_line cur) ls = true -> folded_stop cur rest = true ->
  (List.length ls < n)%nat ->
  text_loop n None cur r s =
    Done (Py.strip (r ++ folded_tail ls))
         (set_file (mk_file (contents (file s)) (pos (file s) + String.length (cat_lines ls))) s).
Proof.
  induction ls as [|l ls IH]; intros rest n cur r s Hl Hls Hrest Hn;
    (destruct n as [|n]; [simpl in Hn; lia|]);
    cbn [text_loop]; unfold bind at 1, readline; rewrite readline_of_lines;
    fold (remaining s); rewrite Hl; cbn [hd List.app].
  - destruct rest as [|l rest]; cbn [hd].
    + cbn [String.eqb]. unfold ret. cbn [folded_tail cat_lines fold_right String.length].
      rewrite str_app_nil_r, Nat.add_0_r. reflexivity.
    + cbn [folded_stop] in Hrest. apply andb_true_iff in Hrest as [Hb Hi].
      apply negb_true_iff in Hb.
      rewrite (strip_nonblank_nonempty l Hb), Hb. cbn [String.eqb]. rewrite Hi.
      unfold seek_back, modify, ret. cbn [folded_tail cat_lines fold_right String.length].
      rewrite str_app_nil_r. unfold bind. cbn [set_file file pos contents].
      rewrite Nat.add_sub, Nat.add_0_r. reflexivity.
  - cbn [forallb] in Hls. apply andb_true_iff in Hls as [H1 Hls].
    unfold folded_line in H1. apply andb_true_iff in H1 as [Hb Hi].
    apply negb_true_iff in Hb.
    rewrite (strip_nonblank_nonempty l Hb), Hb.
    replace (get_indent_level l <=? cur) with false by (symmetry; apply Z.leb_gt, Z.ltb_lt, Hi).
    rewrite (IH rest).
    + rewrite set_file_set_file. unfold set_file. cbn [file pos contents].
      cbn [folded_tail fold_right]. fold (folded_tail ls).
      rewrite <- !str_app_assoc. unfold cat_lines. cbn [fold_right]. fold (cat_lines ls).
      rewrite str_length_app, Nat.add_assoc. reflexivity.
    + pose proof (lines_after_readline (remaining s)) as Ht.
      rewrite readline_of_lines, Hl in Ht. cbn [hd tl List.app] in Ht.
      unfold remaining, set_file in *. cbn [file contents pos].
      rewrite str_drop_add. exact Ht.
    + exact Hls.
    + exact Hrest.
    + simpl in Hn; lia.
Qed.

(** [get_text_block] on a value that does not open with a quote (a folded
    block), in an ASCII file: when the lines left in the file are
    continuation lines [ls] (none blank, each indented deeper than
    [current_indent]) followed by the end of the file or by a non-blank line
    indented no deeper, the result is the
    value followed by each continuation line stripped and preceded by a
    space, the whole stripped; the file is left at the first line after
    [ls], which is not consumed, and nothing else of the state changes. *)
Theorem get_text_block_folded : forall fuel c v cur ls rest s,
  Py.ascii_text (remaining s) = true ->
  Py.in_chars (Py.dquote ++ "'") c = false ->
  lines_of (remaining s) = (ls ++ rest)%list ->
  forallb (folded_line cur) ls = true -> folded_stop cur rest = true ->
  (List.length ls < fuel)%nat ->
  exists s', get_text_block fuel (String c v) cur s = Done (Py.strip (String c v ++ folded_tail ls)) s'
    /\ heap s' = heap s /\ data_layers s' = data_layers s
    /\ contents (file s') = contents (file s) /\ lines_of (remaining s') = rest.
Proof.
  intros fuel c v cur ls rest s _ Hc Hl Hls Hrest Hn.
  unfold get_text_block. rewrite Hc.
  rewrite (text_loop_folded ls rest fuel cur (String c v) s Hl Hls Hrest Hn).
  eexists. split; [reflexivity|]. cbn [set_file heap data_layers file contents].
  split; [reflexivity|]. split; [reflexivity|]. split; [reflexivity|].
  unfold remaining. cbn [set_file file contents pos].
  rewrite str_drop_add. apply lines_after_cat. exact Hl.
Qed.

(** ** Extra: the kind of the loaded root *)

(** The root [r] of [load] is the outermost layer, and its container is a
    dict exactly when [k]. *)
Definition root_ok (r : nat) (k : bool) (s : state) : Prop :=
  (exists pre i, data_layers s = (pre ++ [(i, r)])%list) /\
  (exists c, nth_error (heap s) r = Some c /\ is_dict c = k).

Section RootKind.

Variable r : nat.
Variable k : bool.

Definition pres {A} (m : M A) : Prop :=
  forall s a s', root_ok r k s -> m s = Done a s' -> root_ok r k s'.

Lemma pres_ret : forall A (a : A), pres (ret a).
Proof. intros A a s b s' H E. injection E as _ <-. exact H. Qed.

Lemma pres_raise : forall A e, pres (@raise A e).
Proof. intros A e s b s' H E. discriminate E. Qed.

Lemma pres_out_of_fuel : forall A, pres (fun _ : state => @OutOfFuel A).
Proof. intros A s a s' H E. discriminate E. Qed.

Lemma pres_bind : forall A B (m : M A) (f : A -> M B),
  pres m -> (forall a, pres (f a)) -> pres (bind m f).
Proof.
  intros A B m f Hm Hf s b s' H E. unfold bind in E.
  destruct (m s) as [a s1| |] eqn:Em; try discriminate.
  exact (Hf a s1 b s' (Hm s a s1 H Em) E).
Qed.

Lemma pres_bind_lift : forall A B (x : res A) (f : A -> M B),
  (forall a, x = Ok a -> pres (f a)) -> pres (bind (lift x) f).
Proof.
  intros A B x f Hf s b s' H E. unfold bind, lift in E.
  destruct x as [a|e]; [|discriminate]. exact (Hf a eq_refl s b s' H E).
Qed.

Lemma pres_state : forall A (m : M A),
  (forall s a s', m s = Done a s' -> heap s' = heap s /\ data_layers s' = data_layers s) -> pres m.
Proof.
  intros A m Hm s a s' [H1 H2] E. unfold root_ok. destruct (Hm s a s' E) as [-> ->].
  split; assumption.
Qed.

Lemma pres_readline : pres readline.
Proof. apply pres_state. intros s a s' E. injection E as _ <-. split; reflexivity. Qed.

Lemma pres_seek_back : forall n, pres (seek_back n).
Proof. intros n. apply pres_state. intros s a s' E. injection E as _ <-. split; reflexivity. Qed.

Lemma pres_gets : forall A (f : state -> A), pres (gets f).
Proof. intros A f. apply pres_state. intros s a s' E. injection E as _ <-. split; reflexivity. Qed.

Lemma pres_top_layer : pres top_layer.
Proof.
  apply pres_state. intros s a s' E. unfold top_layer in E.
  destruct (data_layers s) eqn:El; [discriminate|]. injection E as _ <-.
  split; [reflexivity|exact El].
Qed.

Lemma pres_deref : forall a, pres (deref a).
Proof.
  intros a. apply pres_state. intros s b s' E. unfold deref in E.
  destruct (nth_error (heap s) a); [|discriminate]. injection E as _ <-. split; reflexivity.
Qed.

Lemma pres_add_data_layer : forall i p, pres (add_data_layer i p).
Proof.
  intros i p s a s' [[pre [j Hl]] Hh] E. injection E as _ <-. split.
  - exists ((i, p) :: pre), j. cbn [set_layers data_layers]. rewrite Hl. reflexivity.
  - exact Hh.
Qed.

Lemma pres_alloc : forall c, pres (alloc c).
Proof.
  intros c s a s' [Hl [c0 [Hc Hk]]] E. injection E as _ <-. split; [exact Hl|].
  exists c0. split; [|exact Hk]. cbn [set_heap heap].
  rewrite nth_error_app1; [exact Hc|]. apply nth_error_Some. congruence.
Qed.

Lemma nth_error_upd_nth_kind : forall (l : list container) a x c b c',
  nth_error l a = Some c -> is_dict x = is_dict c -> nth_error l b = Some c' ->
  exists c'', nth_error (upd_nth a x l) b = Some c'' /\ is_dict c'' = is_dict c'.
Proof.
  induction l as [|y l IH]; intros a x c b c' Ha Hx Hb; [destruct b; discriminate|].
  destruct a as [|a], b as [|b]; cbn [upd_nth nth_error] in *.
  - injection Ha as <-. injection Hb as <-. exists x. split; [reflexivity|exact Hx].
  - exists c'. split; [exact Hb|reflexivity].
  - exists c'. split; [exact Hb|reflexivity].
  - exact (IH a x c b c' Ha Hx Hb).
Qed.

Lemma pres_setitem : forall a kk v, pres (setitem a kk v).
Proof.
  intros a kk v s b s' [Hl [c0 [Hc Hk]]] E. unfold setitem, bind, deref in E.
  destruct (nth_error (heap s) a) as [[vs|kvs]|] eqn:Ea; try discriminate.
  destruct (hashable kk); [|discriminate]. injection E as _ <-. split; [exact Hl|].
  cbn [set_heap heap].
  destruct (nth_error_upd_nth_kind (heap s) a (CDict (dict_set kk v kvs)) _ r c0 Ea eq_refl Hc)
    as [c1 [H1 H2]].
  exists c1. split; [exact H1|congruence].
Qed.

Lemma pres_append : forall a v, pres (append a v).
Proof.
  intros a v s b s' [Hl [c0 [Hc Hk]]] E. unfold append, bind, deref in E.
  destruct (nth_error (heap s) a) as [[vs|kvs]|] eqn:Ea; try discriminate.
  injection E as _ <-. split; [exact Hl|].
  cbn [set_heap heap].
  destruct (nth_error_upd_nth_kind (heap s) a (CList (vs ++ [v])) _ r c0 Ea eq_refl Hc)
    as [c1 [H1 H2]].
  exists c1. split; [exact H1|congruence].
Qed.

(** [pop_data_layer] followed by [top_layer]: popping the last layer makes
    [top_layer] raise, so the root stays the outermost layer. *)
Lemma pres_pop_then_top : forall B (f : nested_data -> M B),
  (forall x, pres (f x)) -> pres (bind pop_data_layer (fun _ => bind top_layer f)).
Proof.
  intros B f Hf s b s' [[pre [i Hl]] Hh] E. unfold bind, pop_data_layer, top_layer in E.
  rewrite Hl in E. destruct pre as [|y pre]; cbn [List.app] in E; [discriminate|].
  cbn [set_layers data_layers] in E.
  destruct (pre ++ [(i, r)])%list as [|z rest] eqn:Er; [destruct pre; discriminate|].
  apply (Hf z (set_layers (z :: rest) s) b s'); [|exact E].
  split; [|exact Hh]. exists pre, i. cbn [set_layers data_layers]. symmetry. exact Er.
Qed.

End RootKind.

Create HintDb pres_db.
#[local] Hint Resolve pres_ret pres_raise pres_out_of_fuel pres_readline pres_seek_back
  pres_gets pres_top_layer pres_deref pres_add_data_layer pres_alloc pres_setitem
  pres_append : pres_db.

(** One step through a monadic body, as [keeps_step]. *)
Ltac pres_step :=
  match goal with
  | |- pres _ _ (bind (if ?b then pop_data_layer else ret tt) _) =>
      destruct b; [apply pres_pop_then_top; intros ?|apply pres_bind; [|intros ?]]
  | |- pres _ _ (bind (lift _) _) => apply pres_bind_lift; intros ? ?
  | |- pres _ _ (bind _ _) => apply pres_bind; [|intros ?]
  | |- pres _ _ (if ?b then _ else _) => destruct b eqn:?
  | |- pres _ _ (match ?x with _ => _ end) => destruct x
  | |- pres _ _ _ => solve [eauto with pres_db]
  end.

Ltac pres_tac := repeat pres_step.

Lemma pres_future_loop : forall r k n fd, pres r k (future_loop n fd).
Proof. intros r k n; induction n as [|n IH]; intros fd; simpl; pres_tac. Qed.
#[local] Hint Resolve pres_future_loop : pres_db.

Lemma pres_read_future_line : forall r k fuel, pres r k (read_future_line fuel).
Proof. intros r k fuel. unfold read_future_line. pres_tac. Qed.
#[local] Hint Resolve pres_read_future_line : pres_db.

Lemma pres_text_loop : forall r k n q cur x, pres r k (text_loop n q cur x).
Proof. intros r k n; induction n as [|n IH]; intros q cur x; simpl; pres_tac. Qed.
#[local] Hint Resolve pres_text_loop : pres_db.

Lemma pres_get_text_block : forall r k fuel x cur, pres r k (get_text_block fuel x cur).
Proof. intros r k fuel x cur. unfold get_text_block. pres_tac. Qed.
#[local] Hint Resolve pres_get_text_block : pres_db.

Lemma pres_handle_dict : forall r k fuel d cur, pres r k (handle_dict fuel d cur).
Proof. intros r k fuel d cur. unfold handle_dict. cbv zeta. pres_tac. Qed.
#[local] Hint Resolve pres_handle_dict : pres_db.

Lemma pres_handle_list : forall r k fuel d cur, pres r k (handle_list fuel d cur).
Proof. intros r k fuel d cur. unfold handle_list. cbv zeta. pres_tac. Qed.
#[local] Hint Resolve pres_handle_list : pres_db.

Lemma pres_handle_line : forall r k fuel d cur, pres r k (handle_line fuel d cur).
Proof. intros r k fuel d cur. unfold handle_line. pres_tac. Qed.
#[local] Hint Resolve pres_handle_line : pres_db.

Lemma pop_layers_suffix : forall cur ls ls',
  pop_layers cur ls = Ok ls' -> exists pre, ls = (pre ++ ls')%list.
Proof.
  intros cur ls; induction ls as [|y ls IH]; intros ls' E; cbn [pop_layers] in E.
  - destruct (cur <? 0); [discriminate E|]. injection E as <-. exists []. reflexivity.
  - destruct (cur <? layer_sum (y :: ls)).
    + apply IH in E as [pre Hp]. exists (y :: pre). rewrite Hp. reflexivity.
    + injection E as <-. exists []. reflexivity.
Qed.

Lemma suffix_last : forall A (pre pre0 l : list A) (x : A),
  l <> [] -> (pre ++ [x])%list = (pre0 ++ l)%list -> exists pre', l = (pre' ++ [x])%list.
Proof.
  intros A pre pre0 l x Hl H. destruct (exists_last Hl) as [l0 [y Hy]]. subst l.
  rewrite app_assoc in H. apply app_inj_tail in H as [_ ->]. exists l0. reflexivity.
Qed.

(** With no layer left, a line is never handled: [top_layer] raises, or the
    line is neither a list nor a dict line. *)
Lemma handle_line_empty : forall fuel d cur s a s',
  data_layers s = [] -> handle_line fuel d cur s <> Done a s'.
Proof.
  intros fuel d cur s a s' H. unfold handle_line, handle_list.
  destruct (Py.startswith "- " (strip_indent d)).
  - unfold bind at 1 2, top_layer at 1. rewrite H. intros X. discriminate X.
  - unfold handle_dict, bind at 1, ret at 1.
    destruct (get_dict_value d) as [[[kk v]|]|e]; cbn [lift].
    + unfold bind at 1 2 3, ret at 1, top_layer at 1. rewrite H. intros X. discriminate X.
    + unfold bind, ret, raise. intros X. discriminate X.
    + unfold bind, raise. intros X. discriminate X.
Qed.

Lemma pres_on_line : forall r k fuel d, pres r k (on_line fuel d).
Proof.
  intros r k fuel d. unfold on_line. cbv zeta.
  destruct (String.eqb (Py.strip d) ""); [apply pres_ret|].
  destruct (Py.startswith "#" (Py.strip d)); [apply pres_ret|].
  intros s a s' Hs E. unfold bind at 1 2 3, gets at 1, lift at 1, modify at 1 in E.
  destruct (pop_layers (line_indent d) (data_layers s)) as [ls'|e] eqn:Ep;
    unfold ret, raise in E; cbv beta iota in E; [|discriminate E].
  destruct (layer_sum ls' <? line_indent d); [discriminate E|].
  destruct ls' as [|x rest].
  - exfalso. exact (handle_line_empty fuel d (line_indent d) (set_layers [] s) a s' eq_refl E).
  - apply (pres_handle_line r k fuel d (line_indent d) (set_layers (x :: rest) s) a s');
      [|exact E].
    destruct Hs as [[pre [i Hl]] Hh]. split; [|exact Hh].
    cbn [set_layers data_layers].
    destruct (pop_layers_suffix _ _ _ Ep) as [pre0 Hpre]. rewrite Hl in Hpre.
    destruct (suffix_last _ pre pre0 (x :: rest) (i, r) ltac:(discriminate) Hpre) as [pre' Hx].
    exists pre', i. exact Hx.
Qed.
#[local] Hint Resolve pres_on_line : pres_db.

Lemma pres_main_loop : forall r k fuel n c, pres r k (main_loop fuel n c).
Proof. intros r k fuel n; induction n as [|n IH]; intros c; simpl; pres_tac. Qed.

Lemma bind_done : forall A B (m : M A) (f : A -> M B) s b s',
  bind m f s = Done b s' -> exists a s1, m s = Done a s1 /\ f a s1 = Done b s'.
Proof.
  intros A B m f s b s' E. unfold bind in E.
  destruct (m s) as [a s1| |]; try discriminate. exists a, s1. split; [reflexivity|exact E].
Qed.

(** The lookahead yields the first line it does not skip; the heap is
    untouched. *)
Lemma future_loop_line : forall n fd s full line s',
  future_loop n fd s = Done (full, line) s' ->
  find (fun l => negb (future_skips l)) (lines_of (remaining s)) = Some line /\ heap s' = heap s.
Proof.
  induction n as [|n IH]; intros fd s full line s' E; [discriminate E|].
  cbn [future_loop] in E. unfold bind at 1, readline in E. rewrite readline_of_lines in E.
  fold (remaining s) in E.
  destruct (future_skips (hd EmptyString (lines_of (remaining s)))) eqn:Hs.
  - apply IH in E as [Hf Hh]. split; [|exact Hh].
    unfold remaining at 1 in Hf. cbn [set_file file contents pos] in Hf.
    rewrite str_drop_add in Hf. fold (remaining s) in Hf.
    rewrite <- readline_of_lines, lines_after_readline in Hf.
    destruct (lines_of (remaining s)) as [|x xs]; [exact Hf|].
    cbn [hd] in Hs. cbn [find tl] in *. rewrite Hs. exact Hf.
  - unfold ret in E. injection E as _ <- <-. split; [|reflexivity].
    destruct (lines_of (remaining s)) as [|x xs]; [cbv in Hs; discriminate Hs|].
    cbn [hd] in Hs. cbn [find]. rewrite Hs. reflexivity.
Qed.

Lemma read_future_line_line : forall fuel s fd line s',
  read_future_line fuel s = Done (fd, line) s' ->
  find (fun l => negb (future_skips l)) (lines_of (remaining s)) = Some line /\ heap s' = heap s.
Proof.
  intros fuel s fd line s' E. unfold read_future_line in E.
  apply bind_done in E as [[full l] [s1 [E1 E2]]].
  apply future_loop_line in E1 as [Hf Hh].
  unfold bind, seek_back, modify, ret in E2. injection E2 as _ <- <-.
  split; [exact Hf|exact Hh].
Qed.

Lemma load_m_root : forall fuel text lc root s',
  load_m fuel (init_state text) = Done (lc, root) s' ->
  exists line, find (fun l => negb (future_skips l)) (lines_of text) = Some line /\
    root = 0%nat /\
    exists c, nth_error (heap s') 0 = Some c /\
              is_dict c = negb (Py.startswith "- " (Py.strip line)).
Proof.
  intros fuel text lc root s' E. unfold load_m in E.
  apply bind_done in E as [[fd line] [s1 [E1 E2]]].
  apply read_future_line_line in E1 as [Hf Hh]. cbn [heap init_state] in Hh.
  exists line. split; [exact Hf|].
  cbv beta iota in E2. apply bind_done in E2 as [u [s2 [E2 E3]]].
  assert (H2 : root_ok 0 (negb (Py.startswith "- " (Py.strip line))) s2).
  { destruct (Py.startswith "- " (Py.strip line));
      apply bind_done in E2 as [a0 [s1' [Ea Em]]];
      unfold alloc in Ea; injection Ea as <- <-; unfold modify in Em; injection Em as _ <-;
      rewrite Hh; (split; [exists []; eexists; cbn; reflexivity|eexists; split; reflexivity]). }
  apply bind_done in E3 as [lc0 [s3 [E3 E4]]].
  pose proof (pres_main_loop _ _ fuel fuel 0%nat s2 lc0 s3 H2 E3) as [[pre [i Hl]] Hk].
  apply bind_done in E4 as [ls [s4 [E4 E5]]]. unfold gets in E4. injection E4 as <- <-.
  rewrite Hl, rev_app_distr in E5. cbn [rev List.app] in E5.
  unfold ret in E5. injection E5 as _ <- <-. split; [reflexivity|exact Hk].
Qed.

(** [load] returns a list when the first line the lookahead does not skip
    (the first line that is neither blank nor starts with '#'), once
    stripped, starts with "- ", and a dict otherwise; whatever the rest of
    the file holds, the root keeps that kind. *)
Theorem load_root_kind : forall fuel text t,
  load fuel text = Some (Ok t) ->
  exists line, find (fun l => negb (future_skips l)) (lines_of text) = Some line /\
    if Py.startswith "- " (Py.strip line) then exists vs, t = VList vs
    else exists kvs, t = VDict kvs.
Proof.
  intros fuel text t H. unfold load in H.
  destruct (load_m fuel (init_state text)) as [[lc root] s| |] eqn:E; try discriminate H.
  injection H as <-.
  apply load_m_root in E as (line & Hf & -> & c & Hc & Hk).
  exists line. split; [exact Hf|]. cbn [resolve]. rewrite Hc.
  destruct c as [vs|kvs], (Py.startswith "- " (Py.strip line)); cbn [is_dict negb] in Hk;
    try discriminate Hk; eexists; reflexivity.
Qed.

(** ** Witnesses of the extra properties *)

Lemma line_indent_spec_witness :
  Ascii.eqb "a" " " = false /\ Py.startswith "- " "a: 1" = false /\
  line_indent (spaces 2 ++ "a: 1") = 2.
Proof.
  split; [reflexivity|]. split; [reflexivity|].
  apply (proj2 line_indent_spec 2%nat "a"%char ": 1"); reflexivity.
Defined.

Lemma get_dict_value_spec_witness :
  get_dict_value ("  name: 7" ++ newline) = Ok (Some (VStr "name", VInt 7)).
Proof.
  rewrite (proj2 (proj2 get_dict_value_spec) ("  name: 7" ++ newline) "name" "7");
    vm_compute; reflexivity.
Defined.

Lemma find_stop_string_spec_witness :
  find_stop_string ("ab" ++ String "'" " c") (String "'" EmptyString) = Some 2%nat.
Proof.
  pose proof (find_stop_string_spec "'"%char eq_refl eq_refl) as [_ H].
  apply (H "ab" " c"); reflexivity.
Defined.

Lemma get_text_block_one_line_witness :
  get_text_block 3 (String "'" ("ab" ++ String "'" EmptyString)) 0 (init_state "")
    = Done "ab" (init_state "")
  /\ get_text_block 3 (String "'" ("ab" ++ String "'" " c")) 0 (init_state "") = Raise OutsideStop.
Proof.
  pose proof (get_text_block_one_line 3 "'"%char "ab" 0 (init_state "") eq_refl eq_refl eq_refl)
    as [H1 H2].
  split; [exact H1|]. apply (H2 " "%char "c"); reflexivity.
Defined.

(** A value [abc] followed by one deeper line and a line back at the key's
    indent. *)
Definition folded_example : state := init_state ("  more" ++ newline ++ "next: 1" ++ newline).

Lemma get_text_block_folded_witness :
  exists s', get_text_block 3 "abc" 0 folded_example
               = Done (Py.strip ("abc" ++ folded_tail ["  more" ++ newline])) s'
    /\ heap s' = heap folded_example /\ data_layers s' = data_layers folded_example
    /\ contents (file s') = contents (file folded_example)
    /\ lines_of (remaining s') = ["next: 1" ++ newline].
Proof.
  apply (get_text_block_folded 3 "a"%char "bc" 0 ["  more" ++ newline] ["next: 1" ++ newline]
           folded_example); vm_compute; first [reflexivity | lia].
Defined.

Lemma load_root_kind_witness :
  exists line, find (fun l => negb (future_skips l)) (lines_of ("- 1" ++ newline ++ "- 2" ++ newline))
                 = Some line /\
    if Py.startswith "- " (Py.strip line) then exists vs, VList [VInt 1; VInt 2] = VList vs
    else exists kvs, VList [VInt 1; VInt 2] = VDict kvs.
Proof.
  apply (load_root_kind 20 ("- 1" ++ newline ++ "- 2" ++ newline) (VList [VInt 1; VInt 2])).
  vm_compute. reflexivity.
Defined.

(** ** Extra: a file of top-level [key: value] lines *)

Lemma lstrip_by_idem : forall p s, Py.lstrip_by p (Py.lstrip_by p s) = Py.lstrip_by p s.
Proof.
  intros p s; induction s as [|c r IH]; cbn [Py.lstrip_by]; [reflexivity|].
  destruct (p c) eqn:E; [exact IH|]. cbn [Py.lstrip_by]. rewrite E. reflexivity.
Qed.

(** [rstrip] of a string that starts with a kept character keeps it. *)
Lemma lstrip_rstrip_keep : forall p t, Py.lstrip_by p t = t ->
  Py.lstrip_by p (Py.rstrip_by p t) = Py.rstrip_by p t.
Proof.
  intros p [|c r] H; [reflexivity|].
  assert (Hc : p c = false) by (apply (lstrip_by_head p (String c r) c r H)).
  unfold Py.rstrip_by. cbn [Py.rev_str].
  destruct (lstrip_by_keeps_last p (Py.rev_str r) c Hc) as [y Hy]. rewrite Hy, rev_str_app.
  cbn [Py.rev_str String.append Py.lstrip_by]. rewrite Hc. reflexivity.
Qed.

Lemma strip_by_idem : forall p s, Py.strip_by p (Py.strip_by p s) = Py.strip_by p s.
Proof.
  intros p s. unfold Py.strip_by at 1 2.
  rewrite (lstrip_rstrip_keep p (Py.lstrip_by p s) (lstrip_by_idem p s)).
  unfold Py.rstrip_by. rewrite rev_str_involutive, lstrip_by_idem. reflexivity.
Qed.

Lemma handle_value_fuel_str : forall n x s, handle_value_fuel n x = Ok (VStr s) -> Py.strip s = s.
Proof.
  intros n x s E. destruct n as [|n]; cbn [handle_value_fuel] in E; cbv zeta in E;
  repeat match type of E with
         | context [if ?b then _ else _] => destruct b
         | context [match ?x with _ => _ end] => destruct x
         end;
  unfold py_float, py_int in E;
  repeat match type of E with
         | context [if ?b then _ else _] => destruct b
         end;
  try discriminate E; injection E as <-; apply strip_by_idem.
Qed.

Lemma dict_scan_from : forall g i rest k v,
  dict_scan g i rest = Ok (Some (k, v)) -> v = VDict [] \/ exists x, handle_value x = Ok v.
Proof.
  intros g i rest; revert i; induction rest as [|c r IH]; intros i k v E; simpl in E;
    [discriminate|].
  destruct (Ascii.eqb c ":"); [|eauto].
  destruct (_ =? _)%nat.
  - destruct (handle_value _) as [k'|e]; [|discriminate]. injection E as _ <-. left; reflexivity.
  - destruct (Py.startswith " " r); [|eauto].
    destruct (handle_value (strip_list_indent _)) as [k'|e]; [|discriminate].
    match type of E with
    | context [match handle_value ?x with _ => _ end] =>
        destruct (handle_value x) as [v'|e] eqn:Ev; [|discriminate]
    end.
    injection E as _ <-. right. eexists. exact Ev.
Qed.

Lemma get_dict_value_str : forall l k s,
  get_dict_value l = Ok (Some (k, VStr s)) -> Py.strip s = s.
Proof.
  intros l k s E. destruct (dict_scan_from _ _ _ _ _ E) as [H|[x H]]; [discriminate H|].
  exact (handle_value_fuel_str _ _ _ H).
Qed.

(** A value [handle_dict] stores as it is: not the open marker, and not a
    string the block reader would treat as quoted (or could not index). *)
Definition flat_value (v : value) : bool :=
  match v with
  | VStr EmptyString => false
  | VStr (String c _) => negb (Py.in_chars (Py.dquote ++ "'") c)
  | VDict [] => false
  | _ => true
  end.

(** A top-level mapping line: significant, not a list item, at indent 0,
    with a hashable key and a value stored as it is. *)
Definition flat_line (l : string) : bool :=
  negb (String.eqb (Py.strip l) "") && negb (Py.startswith "#" (Py.strip l))
  && negb (Py.startswith "- " (Py.strip l)) && negb (Py.startswith "- " (strip_indent l))
  && (line_indent l =? 0) && (get_indent_level l =? 0)
  && match get_dict_value l with
     | Ok (Some (k, v)) => hashable k && flat_value v
     | _ => false
     end.

(** [data[key] = val] for the pair of one line. *)
Definition flat_insert (kvs : list (value * value)) (l : string) : list (value * value) :=
  match get_dict_value l with
  | Ok (Some (k, v)) => dict_set k v kvs
  | _ => kvs
  end.

Lemma folded_stop_flat : forall ls, forallb flat_line ls = true -> folded_stop 0 ls = true.
Proof.
  intros [|l ls] H; [reflexivity|]. cbn [forallb] in H. apply andb_true_iff in H as [H _].
  unfold flat_line in H. repeat rewrite andb_true_iff in H.
  destruct H as [[[[[[Hb _] _] _] _] Hg] _].
  cbn [folded_stop]. rewrite Hb. apply Z.eqb_eq in Hg. rewrite Hg. reflexivity.
Qed.

Lemma get_text_block_flat_str : forall fuel c r s,
  Py.in_chars (Py.dquote ++ "'") c = false -> folded_stop 0 (lines_of (remaining s)) = true ->
  (0 < fuel)%nat ->
  get_text_block fuel (String c r) 0 s = Done (Py.strip (String c r)) s.
Proof.
  intros fuel c r s Hc Hstop Hf. unfold get_text_block. rewrite Hc.
  rewrite (text_loop_folded [] (lines_of (remaining s)) fuel 0 (String c r) s eq_refl eq_refl Hstop Hf).
  cbn [folded_tail fold_right cat_lines String.length]. rewrite str_app_nil_r, Nat.add_0_r, set_file_same.
  reflexivity.
Qed.

Lemma on_line_flat : forall fuel l kk v kvs f,
  flat_line l = true -> get_dict_value l = Ok (Some (kk, v)) ->
  folded_stop 0 (lines_of (remaining (mk_state [CDict kvs] [(0, 0%nat)] f))) = true ->
  (0 < fuel)%nat ->
  on_line fuel l (mk_state [CDict kvs] [(0, 0%nat)] f)
    = Done tt (mk_state [CDict (dict_set kk v kvs)] [(0, 0%nat)] f).
Proof.
  intros fuel l kk v kvs f Hfl Hg Hstop Hfuel.
  unfold flat_line in Hfl. rewrite Hg in Hfl. repeat rewrite andb_true_iff in Hfl.
  destruct Hfl as [[[[[[Hb Hc] _] Hd] Hi] _] [Hk Hv]].
  apply negb_true_iff in Hb, Hc, Hd. apply Z.eqb_eq in Hi.
  unfold on_line. rewrite Hb, Hc. cbv zeta. rewrite Hi.
  unfold handle_line, handle_list. rewrite Hd. unfold handle_dict. rewrite Hg.
  unfold bind, ret, top_layer, deref, raise, lift, gets, modify.
  cbn -[get_text_block setitem is_empty_dict].
  destruct v as [[|c r]|z|fl|b|vs|[|kv kvs']|a]; cbn [flat_value] in Hv; try discriminate Hv;
    cbn [is_empty_dict].
  1:{ apply negb_true_iff in Hv.
    change (set_layers [(0, 0%nat)] (mk_state [CDict kvs] [(0, 0%nat)] f))
      with (mk_state [CDict kvs] [(0, 0%nat)] f).
    rewrite (get_text_block_flat_str fuel c r _ Hv Hstop Hfuel).
    rewrite (get_dict_value_str l kk (String c r) Hg).
    unfold setitem, bind, deref, modify, ret. cbn -[dict_set]. rewrite Hk. reflexivity. }
  all: unfold setitem, bind, deref, modify, ret; cbn -[dict_set]; rewrite Hk; reflexivity.
Qed.

Lemma flat_line_entry : forall l, flat_line l = true ->
  exists kk v, get_dict_value l = Ok (Some (kk, v)).
Proof.
  intros l H. unfold flat_line in H.
  destruct (get_dict_value l) as [[[kk v]|]|e]; [eauto| |];
    rewrite andb_false_r in H; discriminate H.
Qed.

Lemma flat_line_nonblank : forall l, flat_line l = true -> String.eqb (Py.strip l) "" = false.
Proof.
  intros l H. unfold flat_line in H. repeat rewrite andb_true_iff in H.
  destruct H as [[[[[[Hb _] _] _] _] _] _]. apply negb_true_iff, Hb.
Qed.

Lemma main_loop_flat : forall fuel ls n c kvs f,
  lines_of (remaining (mk_state [CDict kvs] [(0, 0%nat)] f)) = ls ->
  forallb flat_line ls = true -> (List.length ls < n)%nat -> (0 < fuel)%nat ->
  exists f', main_loop fuel n c (mk_state [CDict kvs] [(0, 0%nat)] f)
             = Done (c + List.length ls)%nat
                    (mk_state [CDict (fold_left flat_insert ls kvs)] [(0, 0%nat)] f').
Proof.
  intros fuel ls; induction ls as [|l ls IH]; intros n c kvs f Hl Hf Hn Hfu;
    (destruct n as [|n]; [simpl in Hn; lia|]);
    remember (mk_state [CDict kvs] [(0, 0%nat)] f) as s eqn:Es;
    cbn [main_loop]; unfold bind at 1, readline; rewrite readline_of_lines;
    fold (remaining s); rewrite Hl; cbn [hd].
  - cbn [String.eqb List.length]. unfold ret. rewrite !Nat.add_0_r. subst s. eexists. reflexivity.
  - cbn [forallb] in Hf. apply andb_true_iff in Hf as [Hfl Hf].
    rewrite (strip_nonblank_nonempty l (flat_line_nonblank l Hfl)).
    destruct (flat_line_entry l Hfl) as (kk & v & Hg).
    pose proof (lines_after_readline (remaining s)) as Ht.
    rewrite readline_of_lines, Hl in Ht. cbn [hd tl] in Ht.
    unfold bind at 1. subst s. unfold set_file. cbn [heap data_layers file contents pos].
    rewrite (on_line_flat fuel l kk v kvs _ Hfl Hg).
    2:{ unfold remaining in *. cbn [file contents pos] in *. rewrite str_drop_add, Ht.
        apply folded_stop_flat, Hf. }
    2:{ exact Hfu. }
    destruct (IH n (S c) (dict_set kk v kvs)
                 (mk_file (contents f) (pos f + String.length l)) ) as [f' Hm].
    + unfold remaining in *. cbn [file contents pos] in *. rewrite str_drop_add. exact Ht.
    + exact Hf.
    + simpl in Hn. lia.
    + exact Hfu.
    + exists f'. rewrite Hm. cbn [fold_left List.length].
      replace (flat_insert kvs l) with (dict_set kk v kvs)
        by (unfold flat_insert; rewrite Hg; reflexivity).
      rewrite Nat.add_succ_r. reflexivity.
Qed.

Lemma read_future_line_first : forall fuel s l0 rest,
  lines_of (remaining s) = l0 :: rest -> future_skips l0 = false -> (0 < fuel)%nat ->
  read_future_line fuel s = Done (l0, l0) s.
Proof.
  intros fuel s l0 rest Hl Hs Hf. unfold read_future_line, bind at 1.
  rewrite (future_loop_reads [] l0 rest fuel "" s Hl (Forall_nil _) Hs Hf).
  unfold seek_back, bind, modify, ret, set_file. cbn [file pos contents cat_lines fold_right String.append].
  rewrite Nat.add_sub. destruct s as [h ls [c p]]. reflexivity.
Qed.

Definition not_ref (v : value) : bool := match v with VRef _ => false | _ => true end.

Lemma flat_insert_not_ref : forall ls kvs,
  Forall (fun kv => not_ref (fst kv) = true /\ not_ref (snd kv) = true) kvs ->
  Forall (fun kv => not_ref (fst kv) = true /\ not_ref (snd kv) = true) (fold_left flat_insert ls kvs).
Proof.
  induction ls as [|l ls IH]; intros kvs H; [exact H|]. cbn [fold_left]. apply IH.
  unfold flat_insert. destruct (get_dict_value l) as [[[kk v]|]|e] eqn:Hg; try exact H.
  destruct (get_dict_value_plain l kk v Hg) as [Hk Hv].
  apply (dict_set_Forall (fun x => not_ref x = true) (fun x => not_ref x = true)); [exact H| |].
  - destruct kk; try reflexivity; discriminate Hk.
  - destruct Hv as [Hv| ->]; [|reflexivity]. destruct v; try reflexivity; discriminate Hv.
Qed.

(** [load] on a non-empty ASCII file whose lines are all top-level mapping
    lines ([key: value] at indent 0, with a hashable key and a value other
    than the open marker or a quoted string) returns the dict made by
    assigning each line's value to its key in file order: a key equal
    (Python [==]) to an earlier one keeps the earlier key and its position
    and takes the last value. *)
Theorem load_flat_mapping : forall fuel text,
  Py.ascii_text text = true ->
  (0 < List.length (lines_of text))%nat -> forallb flat_line (lines_of text) = true ->
  (List.length (lines_of text) < fuel)%nat ->
  load fuel text = Some (Ok (VDict (fold_left flat_insert (lines_of text) []))).
Proof.
  intros fuel text _ Hne Hall Hn.
  destruct (lines_of text) as [|l0 rest] eqn:Hl; [simpl in Hne; lia|].
  pose proof Hall as Hall0. cbn [forallb] in Hall0. apply andb_true_iff in Hall0 as [H0 _].
  unfold flat_line in H0. repeat rewrite andb_true_iff in H0.
  destruct H0 as [[[[[[Hb Hc] Hd] _] _] _] _]. apply negb_true_iff in Hb, Hc, Hd.
  assert (Hs : future_skips l0 = false).
  { apply significant_not_skipped; [|exact Hc]. intros E. rewrite E in Hb. discriminate Hb. }
  unfold load, load_m. unfold bind at 1.
  rewrite (read_future_line_first fuel (init_state text) l0 rest Hl Hs ltac:(simpl in Hn; lia)).
  cbv beta iota. rewrite Hd.
  unfold bind at 1 2 3, alloc, modify.
  change (set_layers [(0, List.length (heap (init_state text)))]
            (set_heap (heap (init_state text) ++ [CDict []]) (init_state text)))
    with (mk_state [CDict []] [(0, 0%nat)] (mk_file text 0)).
  destruct (main_loop_flat fuel (l0 :: rest) fuel 0 [] (mk_file text 0) Hl Hall Hn
              ltac:(simpl in Hn; lia)) as [f' Hm].
  unfold bind at 1. rewrite Hm. unfold bind, gets, ret. cbn -[fold_left flat_insert].
  f_equal. f_equal. f_equal.
  rewrite <- (map_id (fold_left flat_insert (l0 :: rest) [])) at 2.
  apply map_ext_Forall.
  eapply Forall_impl; [|apply flat_insert_not_ref; constructor].
  intros [k v] [Hk Hv]. cbn [fst snd not_ref] in *.
  destruct k; try discriminate Hk; destruct v; try discriminate Hv; reflexivity.
Qed.

(** Four mapping lines, the first key repeated on the last. *)
Definition flat_example : string :=
  "a: 1" ++ newline ++ "b: [2, 3]" ++ newline ++ "c: x" ++ newline ++ "a: 4" ++ newline.

Lemma load_flat_mapping_witness :
  load 10 flat_example
    = Some (Ok (VDict [(VStr "a", VInt 4); (VStr "b", VList [VInt 2; VInt 3]); (VStr "c", VStr "x")])).
Proof.
  rewrite (load_flat_mapping 10 flat_example); [reflexivity| | | |]; vm_compute; first [reflexivity | lia].
Defined.

(** ** Extra: a file of top-level list items *)

(** A top-level list item: its stripped text and its text after the indent
    start with "- ", its indent is 2 and it has no [key: value] pair. *)
Definition list_item_line (l : string) : bool :=
  Py.startswith "- " (Py.strip l) && Py.startswith "- " (strip_indent l)
  && (line_indent l =? 2)
  && match get_dict_value l with Ok None => true | _ => false end.

Lemma prefix_dash_inv : forall x, String.prefix "- " x = true -> exists r, x = "- " ++ r.
Proof.
  intros [|c [|d r]] H; cbn [String.prefix] in H; [discriminate H| |].
  - destruct (Ascii.ascii_dec "-" c); discriminate H.
  - destruct (Ascii.ascii_dec "-" c) as [<-|_]; [|discriminate H].
    destruct (Ascii.ascii_dec " " d) as [<-|_]; [|discriminate H].
    exists r. reflexivity.
Qed.

Lemma list_item_significant : forall l, list_item_line l = true ->
  String.eqb (Py.strip l) "" = false /\ Py.startswith "#" (Py.strip l) = false.
Proof.
  intros l H. unfold list_item_line in H. repeat rewrite andb_true_iff in H.
  destruct H as [[[H _] _] _]. unfold Py.startswith in H.
  destruct (prefix_dash_inv _ H) as [r ->]. split; reflexivity.
Qed.

Lemma on_line_list : forall fuel l v vs f,
  list_item_line l = true -> handle_value (strip_list_indent l) = Ok v ->
  on_line fuel l (mk_state [CList vs] [(2, 0%nat)] f)
    = Done tt (mk_state [CList (vs ++ [v])] [(2, 0%nat)] f).
Proof.
  intros fuel l v vs f Hl Hv.
  destruct (list_item_significant l Hl) as [Hb Hc].
  unfold list_item_line in Hl. repeat rewrite andb_true_iff in Hl.
  destruct Hl as [[[_ Hd] Hi] Hg]. apply Z.eqb_eq in Hi.
  destruct (get_dict_value l) as [[kv|]|e] eqn:Hg'; try discriminate Hg.
  unfold on_line. rewrite Hb, Hc. cbv zeta. rewrite Hi.
  unfold handle_line, handle_list. rewrite Hd, Hg', Hv.
  unfold bind, ret, top_layer, deref, raise, lift, gets, modify, append. cbn. reflexivity.
Qed.

Lemma main_loop_list : forall fuel ls vs n c ws f,
  lines_of (remaining (mk_state [CList ws] [(2, 0%nat)] f)) = ls ->
  forallb list_item_line ls = true ->
  map_res handle_value (map strip_list_indent ls) = Ok vs ->
  (List.length ls < n)%nat ->
  exists f', main_loop fuel n c (mk_state [CList ws] [(2, 0%nat)] f)
             = Done (c + List.length ls)%nat (mk_state [CList (ws ++ vs)] [(2, 0%nat)] f').
Proof.
  intros fuel ls; induction ls as [|l ls IH]; intros vs n c ws f Hl Hf Hvs Hn;
    (destruct n as [|n]; [simpl in Hn; lia|]);
    remember (mk_state [CList ws] [(2, 0%nat)] f) as s eqn:Es;
    cbn [main_loop]; unfold bind at 1, readline; rewrite readline_of_lines;
    fold (remaining s); rewrite Hl; cbn [hd].
  - cbn [map map_res] in Hvs. injection Hvs as <-.
    cbn [String.eqb List.length]. unfold ret. rewrite !Nat.add_0_r, app_nil_r.
    subst s. eexists. reflexivity.
  - cbn [forallb] in Hf. apply andb_true_iff in Hf as [Hfl Hf].
    cbn [map map_res] in Hvs.
    destruct (handle_value (strip_list_indent l)) as [v|e] eqn:Hv; [|discriminate Hvs].
    destruct (map_res handle_value (map strip_list_indent ls)) as [vs'|e] eqn:Hvs'; [|discriminate Hvs].
    injection Hvs as <-.
    destruct (list_item_significant l Hfl) as [Hb _].
    rewrite (strip_nonblank_nonempty l Hb).
    pose proof (lines_after_readline (remaining s)) as Ht.
    rewrite readline_of_lines, Hl in Ht. cbn [hd tl] in Ht.
    unfold bind at 1. subst s. unfold set_file. cbn [heap data_layers file contents pos].
    rewrite (on_line_list fuel l v ws _ Hfl Hv).
    destruct (IH vs' n (S c) (ws ++ [v])%list (mk_file (contents f) (pos f + String.length l)))
      as [f' Hm].
    + unfold remaining in *. cbn [file contents pos] in *. rewrite str_drop_add. exact Ht.
    + exact Hf.
    + reflexivity.
    + simpl in Hn. lia.
    + exists f'. rewrite Hm. cbn [List.length]. rewrite Nat.add_succ_r, <- app_assoc. reflexivity.
Qed.

(** [load] on a non-empty ASCII file whose lines are all top-level list
    items without a [key: value] pair returns the list of the values [handle_value] gives
    for each item's text after [strip_list_indent], in file order. *)
Theorem load_flat_list : forall fuel text vs,
  Py.ascii_text text = true ->
  (0 < List.length (lines_of text))%nat -> forallb list_item_line (lines_of text) = true ->
  map_res handle_value (map strip_list_indent (lines_of text)) = Ok vs ->
  (List.length (lines_of text) < fuel)%nat ->
  load fuel text = Some (Ok (VList vs)).
Proof.
  intros fuel text vs _ Hne Hall Hvs Hn.
  destruct (lines_of text) as [|l0 rest] eqn:Hl; [simpl in Hne; lia|].
  pose proof Hall as Hall0. cbn [forallb] in Hall0. apply andb_true_iff in Hall0 as [H0 _].
  destruct (list_item_significant l0 H0) as [Hb Hc].
  assert (Hd : Py.startswith "- " (Py.strip l0) = true).
  { unfold list_item_line in H0. repeat rewrite andb_true_iff in H0. apply H0. }
  assert (Hs : future_skips l0 = false).
  { apply significant_not_skipped; [|exact Hc]. intros E. rewrite E in Hb. discriminate Hb. }
  unfold load, load_m. unfold bind at 1.
  rewrite (read_future_line_first fuel (init_state text) l0 rest Hl Hs ltac:(simpl in Hn; lia)).
  cbv beta iota. rewrite Hd.
  unfold bind at 1 2 3, alloc, modify.
  change (set_layers [(2, List.length (heap (init_state text)))]
            (set_heap (heap (init_state text) ++ [CList []]) (init_state text)))
    with (mk_state [CList []] [(2, 0%nat)] (mk_file text 0)).
  destruct (main_loop_list fuel (l0 :: rest) vs fuel 0 [] (mk_file text 0) Hl Hall Hvs Hn)
    as [f' Hm].
  unfold bind at 1. rewrite Hm. unfold bind, gets, ret. cbn -[map_res].
  f_equal. f_equal. f_equal.
  rewrite <- (map_id vs) at 2. apply map_ext_Forall.
  assert (Hp : Forall (fun v => plain v = true) vs)
    by (eapply map_res_Forall; [|exact Hvs]; intros x y; apply handle_value_plain).
  eapply Forall_impl; [|exact Hp]. intros v Hv. destruct v; try discriminate Hv; reflexivity.
Qed.

(** Three list items: an integer, a plain string and a flow sequence. *)
Definition list_example : string :=
  "- 1" ++ newline ++ "- x" ++ newline ++ "- [2, 3]" ++ newline.

Lemma load_flat_list_witness :
  load 10 list_example = Some (Ok (VList [VInt 1; VStr "x"; VList [VInt 2; VInt 3]])).
Proof.
  apply (load_flat_list 10 list_example); vm_compute; first [reflexivity | lia].
Defined.

(** ** Extra: a key with no inline value opens a nested block *)

Lemma find_split : forall (f : string -> bool) xs x, find f xs = Some x ->
  exists pre post, xs = (pre ++ x :: post)%list /\ Forall (fun y => f y = false) pre /\ f x = true.
Proof.
  intros f xs x; induction xs as [|y xs IH]; intros H; [discriminate H|].
  cbn [find] in H. destruct (f y) eqn:E.
  - injection H as <-. exists [], xs. split; [reflexivity|]. split; [constructor|exact E].
  - destruct (IH H) as (pre & post & -> & Hpre & Hx).
    exists (y :: pre), post. split; [reflexivity|]. split; [constructor; assumption|exact Hx].
Qed.

(** The lookahead yields the first line it does not skip and restores the
    whole state. *)
Lemma read_future_line_find : forall fuel s L,
  find (fun l => negb (future_skips l)) (lines_of (remaining s)) = Some L ->
  (List.length (lines_of (remaining s)) <= fuel)%nat ->
  exists fd, read_future_line fuel s = Done (fd, L) s.
Proof.
  intros fuel s L Hf Hn.
  destruct (find_split _ _ _ Hf) as (pre & post & Heq & Hpre & HL).
  apply negb_true_iff in HL.
  assert (Hsk : Forall (fun l => future_skips l = true) pre).
  { eapply Forall_impl; [|exact Hpre]. intros y Hy. apply negb_false_iff, Hy. }
  eexists. unfold read_future_line, bind at 1.
  rewrite (future_loop_reads pre L post fuel "" s Heq Hsk HL).
  - unfold seek_back, bind, modify, ret, set_file. cbn [file pos contents].
    rewrite Nat.add_sub. destruct s as [h ls [c p]]. reflexivity.
  - rewrite Heq, length_app in Hn. simpl in Hn. lia.
Qed.

(** On a list item, [get_list_indent(d) or get_indent_level(d)] is the list
    indent: it is at least 2, so [or] keeps it. *)
Lemma line_indent_list : forall L,
  Py.startswith "- " (strip_indent L) = true -> get_list_indent L = Some (line_indent L).
Proof.
  intros L H. unfold line_indent, get_list_indent. rewrite H. cbn [int_or].
  replace (Z.of_nat (String.length (hd EmptyString (Py.split "- " L))) + 2 =? 0) with false
    by (symmetry; apply Z.eqb_neq; lia).
  reflexivity.
Qed.

(** [handle_dict] on a line [key:] with nothing after the colon, under a
    dict layer: it peeks at the first line the lookahead does not skip
    ([L]: not blank as bytes and not starting with '#' in its first column,
    so an indented comment is peeked), which must be ASCII; if that line is
    indented less than the current line it raises, otherwise
    it allocates a new list (when that line is a list item) or a new dict,
    assigns it to the key, and pushes a layer whose indent is that line's
    indent minus the current one, without consuming any line of the file. *)
Theorem handle_dict_open_block : forall fuel l cur k s i a ls0 kvs L,
  get_dict_value l = Ok (Some (k, VDict [])) ->
  data_layers s = (i, a) :: ls0 -> nth_error (heap s) a = Some (CDict kvs) ->
  hashable k = true ->
  find (fun x => negb (future_skips x)) (lines_of (remaining s)) = Some L ->
  Py.ascii_text L = true ->
  (List.length (lines_of (remaining s)) <= fuel)%nat ->
  handle_dict fuel l cur s =
    if line_indent L <? cur then Raise FutureIndent
    else Done true
      (mk_state
         (upd_nth a (CDict (dict_set k (VRef (List.length (heap s))) kvs))
            (heap s ++ [if Py.startswith "- " (strip_indent L) then CList [] else CDict []]))
         ((line_indent L - cur, List.length (heap s)) :: data_layers s)
         (file s)).
Proof.
  intros fuel l cur k s i a ls0 kvs L Hg Hl Ha Hk Hf _ Hn.
  destruct (read_future_line_find fuel s L Hf Hn) as [fd Hr].
  assert (Ha' : forall c, nth_error (heap s ++ [c]) a = Some (CDict kvs)).
  { intros c. rewrite nth_error_app1; [exact Ha|]. apply nth_error_Some. congruence. }
  unfold handle_dict. rewrite Hg. cbv zeta.
  unfold bind at 1 2, lift, ret at 1. unfold bind at 1, top_layer. rewrite Hl.
  unfold bind at 1, deref at 1. rewrite Ha. cbn [is_dict negb is_empty_dict].
  unfold bind at 1 2. rewrite Hr.
  destruct (line_indent L <? cur); [reflexivity|].
  destruct (Py.startswith "- " (strip_indent L)) eqn:Hd.
  all: try rewrite (line_indent_list L Hd).
  all: cbv [bind alloc ret setitem deref modify add_data_layer raise set_heap set_layers
            heap data_layers file].
  all: rewrite Ha', Hk; destruct s as [h lay f]; cbn in Hl |- *; subst lay; reflexivity.
Qed.

(** A root dict, and a file whose next significant line is a list item
    indented by 2 after a comment. *)
Definition open_example : state :=
  mk_state [CDict []] [(0, 0%nat)] (mk_file ("# c" ++ newline ++ "  - 1" ++ newline) 0).

Lemma handle_dict_open_block_witness :
  handle_dict 5 ("k:" ++ newline) 0 open_example
    = Done true (mk_state [CDict [(VStr "k", VRef 1)]; CList []] [(4, 1%nat); (0, 0%nat)]
                          (file open_example)).
Proof.
  rewrite (handle_dict_open_block 5 ("k:" ++ newline) 0 (VStr "k") open_example 0 0 [] []
             ("  - 1" ++ newline));
    vm_compute; first [reflexivity | lia].
Defined.

Lemma upd_nth_length : forall {A} n (x : A) l, List.length (upd_nth n x l) = List.length l.
Proof.
  intros A n x l; revert n; induction l as [|y l IH]; intros [|n]; cbn; auto.
Qed.

Lemma upd_nth_app1 : forall {A} n (x : A) l t,
  (n < List.length l)%nat -> upd_nth n x (l ++ t)%list = (upd_nth n x l ++ t)%list.
Proof.
  intros A n x l t; revert n; induction l as [|y l IH]; intros [|n] H; cbn in *; try lia;
    [reflexivity|]. rewrite IH; [reflexivity|lia].
Qed.

Lemma upd_nth_last : forall {A} (x c : A) l, upd_nth (List.length l) x (l ++ [c])%list = (l ++ [x])%list.
Proof.
  intros A x c l; induction l as [|y l IH]; cbn; [reflexivity|]. rewrite IH. reflexivity.
Qed.

Lemma upd_nth_last_at : forall {A} n (x c : A) l,
  List.length l = n -> upd_nth n x (l ++ [c])%list = (l ++ [x])%list.
Proof. intros A n x c l <-. apply upd_nth_last. Qed.

Lemma nth_error_upd_last : forall {A} a (y c : A) l,
  (a < List.length l)%nat -> nth_error (upd_nth a y (l ++ [c])%list) (List.length l) = Some c.
Proof.
  intros A a y c l H. rewrite upd_nth_app1 by exact H.
  rewrite nth_error_app2 by (rewrite upd_nth_length; lia).
  rewrite upd_nth_length, Nat.sub_diag. reflexivity.
Qed.

(** [handle_list] on a list item [- key: value] with a value that is neither
    [{}] nor a string, under a list layer: it allocates a new dict, appends
    it to the list, pushes a layer for it whose indent is
    [get_stripped_list_indent(line)] minus the current indent, and stores
    the entry in the new dict; nothing is popped and the file is untouched. *)
Theorem handle_list_dict_item : forall fuel l cur s i a ls0 xs k v,
  Py.startswith "- " (strip_indent l) = true ->
  data_layers s = (i, a) :: ls0 -> nth_error (heap s) a = Some (CList xs) ->
  get_dict_value l = Ok (Some (k, v)) ->
  match v with VStr _ | VDict [] => false | _ => true end = true ->
  hashable k = true ->
  handle_list fuel l cur s =
    Done true
      (mk_state
         (upd_nth a (CList (xs ++ [VRef (List.length (heap s))])) (heap s) ++ [CDict [(k, v)]])
         ((get_stripped_list_indent l - cur, List.length (heap s)) :: data_layers s)
         (file s)).
Proof.
  intros fuel l cur s i a ls0 xs k v Hd Hl Ha Hg Hv Hk.
  assert (Hlt : (a < List.length (heap s))%nat) by (apply nth_error_Some; congruence).
  assert (Ha' : forall c, nth_error (heap s ++ [c]) a = Some (CList xs)).
  { intros c. rewrite nth_error_app1; [exact Ha|exact Hlt]. }
  unfold handle_list. rewrite Hd.
  unfold bind at 1, top_layer. rewrite Hl.
  unfold bind at 1, deref at 1. rewrite Ha. cbn [is_dict andb].
  unfold bind at 1, ret at 1.
  unfold bind at 1, top_layer. rewrite Hl.
  unfold bind at 1, deref at 1. rewrite Ha. cbn [is_list negb].
  unfold bind at 1, lift. rewrite Hg.
  unfold handle_dict. rewrite Hg.
  destruct s as [h lay f]; cbn [heap data_layers file] in Hl, Ha, Ha', Hlt |- *. subst lay.
  cbv [bind alloc ret setitem deref modify add_data_layer raise set_heap set_layers
       heap data_layers file top_layer append lift].
  rewrite Ha'. cbn [is_dict negb].
  rewrite (nth_error_upd_last a _ _ h Hlt).
  destruct v as [t|z|fl|b|vs|[|kv kvs']|r]; try discriminate Hv;
    cbn [is_dict negb is_empty_dict]; rewrite (nth_error_upd_last a _ _ h Hlt), Hk;
    rewrite upd_nth_app1 by exact Hlt;
    rewrite upd_nth_last_at by apply upd_nth_length; reflexivity.
Qed.

(** A root list and the item [- a: 1]. *)
Definition list_dict_example : state :=
  mk_state [CList []] [(2, 0%nat)] (mk_file EmptyString 0).

Lemma handle_list_dict_item_witness :
  handle_list 1 ("- a: 1" ++ newline) 2 list_dict_example
    = Done true (mk_state [CList [VRef 1]; CDict [(VStr "a", VInt 1)]] [(0, 1%nat); (2, 0%nat)]
                          (file list_dict_example)).
Proof.
  rewrite (handle_list_dict_item 1 ("- a: 1" ++ newline) 2 list_dict_example 2 0 [] []
             (VStr "a") (VInt 1));
    vm_compute; reflexivity.
Defined.
